(** * http-trace: the request tracer (package trace) and the report
      renderer (package report)

    The Go packages are embedded as Rocq functions.  Objects reached
    through pointers (the outgoing [*http.Request], its header map, its
    body reader) live in an explicit store, so that sharing between the
    caller, the tracer and the client is visible.  What the network, the clock and the Go libraries
    contribute is an input of the model: the client of a [Trace] says
    which observers it fires and what it returns, and library functions
    whose definition is outside the repository are fields of [Platform]. *)

From Stdlib Require Import ZArith Lia Ascii.
From stdpp Require Import base option list gmap strings sorting pretty.

Local Open Scope Z_scope.

(** ** Go basics *)

(** [time.Duration] is an [int64] count of nanoseconds; subtraction wraps. *)
Definition Duration := Z.

Definition wrap64 (z : Z) : Z := (z + 2 ^ 63) mod 2 ^ 64 - 2 ^ 63.

Definition Duration_sub (a b : Duration) : Duration := wrap64 (a - b).

(** Values of the [error] interface: a plain message, or the value built
    by [fmt.Errorf] with the verb [%w], which keeps the wrapped error. *)
Inductive error :=
| errorString (s : string)
| wrapError (msg : string) (err : error).

Definition Error (e : error) : string :=
  match e with
  | errorString s => s
  | wrapError msg _ => msg
  end.

Definition Unwrap (e : error) : option error :=
  match e with
  | errorString _ => None
  | wrapError _ err => Some err
  end.

(** [fmt.Errorf(prefix + "%w", err)] *)
Definition Errorf_w (prefix : string) (err : error) : error :=
  wrapError (prefix +:+ Error err) err.

(** Run-time panics that the modelled code can raise. *)
Inductive panic :=
| IndexOutOfRange
| NilPointerDereference
| NilMapAssignment.

Inductive result (A : Type) :=
| Ok (a : A)
| Panic (p : panic).
Arguments Ok {A} a.
Arguments Panic {A} p.

#[global] Instance result_ret : MRet result := λ A a, Ok a.
#[global] Instance result_bind : MBind result := λ A B f m,
  match m with
  | Ok a => f a
  | Panic p => Panic p
  end.

(** [s[i]] on a slice *)
Definition index {A} (s : list A) (i : nat) : result A :=
  match s !! i with
  | Some a => Ok a
  | None => Panic IndexOutOfRange
  end.

(** [*p] for a pointer [p] into the store [s]; an address outside the
    store plays the role of [nil]. *)
Definition deref {A} (s : list A) (p : nat) : result A :=
  match s !! p with
  | Some a => Ok a
  | None => Panic NilPointerDereference
  end.

(** ** Package strings *)

Definition LF : string := String "010"%char "".

(** [strings.Cut] for a one-byte separator: the text before and after its
    first occurrence. *)
Fixpoint Cut (sep : ascii) (s : string) : option (string * string) :=
  match s with
  | EmptyString => None
  | String c s' =>
      if Ascii.eqb c sep then Some (EmptyString, s')
      else match Cut sep s' with
           | Some (before, after) => Some (String c before, after)
           | None => None
           end
  end.

(** [strings.SplitN(s, sep, 2)] for a one-byte separator: at most two
    pieces, cut at the first separator. *)
Definition SplitN_2 (s : string) (sep : ascii) : list string :=
  match Cut sep s with
  | Some (before, after) => [before; after]
  | None => [s]
  end.

(** [strings.Join] *)
Fixpoint Join (elems : list string) (sep : string) : string :=
  match elems with
  | [] => ""
  | [e] => e
  | e :: rest => e +:+ sep +:+ Join rest sep
  end.

(** Library functions defined outside the repository.  [formatMillis d]
    stands for [fmt.Sprintf("%9.2fms", d.Seconds()*1000)], which the
    renderer computes in [float64]. *)
Class Platform := {
  TrimSpace : string → string;
  CanonicalMIMEHeaderKey : string → string;
  formatMillis : Duration → string;
}.

(** ** Package net/http/httptrace

    One constructor per observer of [httptrace.ClientTrace] that
    [Execute] installs.  An event carries the readings that the
    observer's calls of [timeSinceStart()] return, in the order of the
    calls.  For [GotConn] the first reading is the one of the branch
    [!connInfo.Reused] and is taken only on that branch. *)
Module httptrace.

Inductive event :=
| GetConn (now : Duration)
| GotConn (Reused : bool) (now now' : Duration)
| GotFirstResponseByte (now now' : Duration)
| DNSStart (now : Duration)
| DNSDone (now : Duration)
| ConnectStart (now : Duration)
| ConnectDone (now : Duration)
| TLSHandshakeStart (now : Duration)
| TLSHandshakeDone (now : Duration)
| WroteRequest (now now' : Duration).

End httptrace.
Import httptrace.

(** ** Package net/http *)
Module http.

Abbreviation Header := (gmap string (list string)).

Definition Header_Set {platform : Platform} (h : Header) (key value : string) : Header :=
  <[CanonicalMIMEHeaderKey key := [value]]> h.

Definition Header_Get {platform : Platform} (h : Header) (key : string) : string :=
  match h !! CanonicalMIMEHeaderKey key with
  | Some (v :: _) => v
  | _ => ""
  end.

Record URL := {
  Scheme : string;
  Host : string;
  Path : string;
}.

(** The request's context: the trace observers attached to it. *)
Inductive Context :=
| Background
| WithClientTrace (parent : Context).

(** An [io.ReadCloser] that holds the body of a request: what is left
    to read of it, and whether [Close] has been called on it. *)
Record Reader := {
  unread : string;
  closed : bool;
}.

(** [http.Request].  [req_Header] is the address of the header map and
    [req_Body] the address of the body reader; an address outside the
    store plays the role of [nil]. *)
Record Request := {
  req_Method : string;
  req_URL : option URL;
  req_Proto : string;
  req_Header : nat;
  req_Body : nat;
  req_ctx : Context;
}.

(** [r.WithContext(ctx)]: a shallow copy of [r] with its context changed. *)
Definition WithContext (r : Request) (ctx : Context) : Request :=
  {| req_Method := req_Method r;
     req_URL := req_URL r;
     req_Proto := req_Proto r;
     req_Header := req_Header r;
     req_Body := req_Body r;
     req_ctx := ctx |}.

(** What [ioutil.ReadAll(resp.Body)] returns: the data read and the read
    error, if any. *)
Record Body := {
  body_data : string;
  body_err : option error;
}.

Record Response := {
  Status : string;
  StatusCode : Z;
  resp_Header : Header;
  resp_Body : Body;
}.

(** The store of objects shared through pointers. *)
Record Heap := {
  requests : list Request;
  headers : list Header;
  bodies : list Reader;
}.

(** An [http.Client], as [client.Do(req)] shows it for the store it is
    called in and the address of [req].  [Do] is what the call fires and
    returns when it returns: the observers fired during the call, in
    order, and the response or the error.  [Jar] is the client's cookie
    jar, [None] being nil: the cookies it holds for the URL of the
    request, each as the text [name=value] that [AddCookie] makes of it.
    [Reads] is the number of bytes that the transport reads of the body
    of the request before it closes it. *)
Record Client := {
  Do : Heap → nat → list event * (error + Response);
  Jar : option (Heap → nat → list string);
  Reads : Heap → nat → nat;
}.

(** [r.AddCookie(c)] on the header map of [r], for the cookie whose text
    is [s]; the key ["Cookie"] is in canonical form. *)
Definition AddCookie (h : Header) (s : string) : Header :=
  match h !! "Cookie" with
  | Some (c :: _) =>
      if decide (c = "") then <["Cookie" := [s]]> h
      else <["Cookie" := [c +:+ "; " +:+ s]]> h
  | _ => <["Cookie" := [s]]> h
  end.

(** The loop of [Client.send] that adds the cookies of the jar to the
    request: each one is written into the header map of the request,
    the map itself and not a copy, and assigning into a nil map panics. *)
Definition add_cookies (cookies : list string) (σ : Heap) (r : Request) : result Heap :=
  match cookies with
  | [] => Ok σ
  | _ :: _ =>
      match headers σ !! req_Header r with
      | None => Panic NilMapAssignment
      | Some h =>
          Ok {| requests := requests σ;
                headers := <[req_Header r := foldl AddCookie h cookies]> (headers σ);
                bodies := bodies σ |}
      end
  end.

(** What is left of a text after [n] bytes of it have been read. *)
Fixpoint skip (n : nat) (s : string) : string :=
  match n, s with
  | O, _ => s
  | S _, EmptyString => EmptyString
  | S n, String _ s => skip n s
  end.

(** The body of the request after [n] bytes of it have been read and it
    has been closed; a request whose body is nil has nothing to read. *)
Definition read_body (n : nat) (σ : Heap) (r : Request) : Heap :=
  match bodies σ !! req_Body r with
  | None => σ
  | Some b =>
      {| requests := requests σ;
         headers := headers σ;
         bodies := <[req_Body r := {| unread := skip n (unread b); closed := true |}]>
                     (bodies σ) |}
  end.

(** The store after [client.Do(req)] for the request at address [p].
    The client does not write the request object.  Without a URL it
    closes the body and gives up; otherwise it adds the cookies of its
    jar, if it has one, and the transport reads the body and closes
    it. *)
Definition Do_store (c : Client) (σ : Heap) (p : nat) : result Heap :=
  r ← deref (requests σ) p;
  match req_URL r with
  | None => Ok (read_body 0 σ r)
  | Some _ =>
      σ1 ← match Jar c with
           | Some jar => add_cookies (jar σ p) σ r
           | None => Ok σ
           end;
      Ok (read_body (Reads c σ p) σ1 r)
  end.

End http.
Import http.

(** ** Package trace (trace/trace.go) *)
Module trace.

Record Timings := mkTimings {
  getConnStart : Duration;
  connectStart : Duration;
  dnsStart : Duration;
  tlsStart : Duration;
  requestStart : Duration;
  delayStart : Duration;
  responseStart : Duration;
  DNSDuration : Duration;
  ConnectionDialDuration : Duration;
  TLSDuration : Duration;
  TotalConnectionDuration : Duration;
  RequestWriteDuration : Duration;
  ResponseDelayDuration : Duration;
  ResponseReadDuration : Duration;
  TotalRequestDuration : Duration;
}.

(** [&Timings{}] *)
Definition Timings_zero : Timings :=
  mkTimings 0 0 0 0 0 0 0 0 0 0 0 0 0 0 0.

(** Assignments to the fields of a [Timings]. *)
Definition set_getConnStart (v : Duration) (tm : Timings) : Timings :=
  let '(mkTimings a b c d e f g h i j k l m n o) := tm in
  mkTimings v b c d e f g h i j k l m n o.
Definition set_connectStart (v : Duration) (tm : Timings) : Timings :=
  let '(mkTimings a b c d e f g h i j k l m n o) := tm in
  mkTimings a v c d e f g h i j k l m n o.
Definition set_dnsStart (v : Duration) (tm : Timings) : Timings :=
  let '(mkTimings a b c d e f g h i j k l m n o) := tm in
  mkTimings a b v d e f g h i j k l m n o.
Definition set_tlsStart (v : Duration) (tm : Timings) : Timings :=
  let '(mkTimings a b c d e f g h i j k l m n o) := tm in
  mkTimings a b c v e f g h i j k l m n o.
Definition set_requestStart (v : Duration) (tm : Timings) : Timings :=
  let '(mkTimings a b c d e f g h i j k l m n o) := tm in
  mkTimings a b c d v f g h i j k l m n o.
Definition set_delayStart (v : Duration) (tm : Timings) : Timings :=
  let '(mkTimings a b c d e f g h i j k l m n o) := tm in
  mkTimings a b c d e v g h i j k l m n o.
Definition set_responseStart (v : Duration) (tm : Timings) : Timings :=
  let '(mkTimings a b c d e f g h i j k l m n o) := tm in
  mkTimings a b c d e f v h i j k l m n o.
Definition set_DNSDuration (v : Duration) (tm : Timings) : Timings :=
  let '(mkTimings a b c d e f g h i j k l m n o) := tm in
  mkTimings a b c d e f g v i j k l m n o.
Definition set_ConnectionDialDuration (v : Duration) (tm : Timings) : Timings :=
  let '(mkTimings a b c d e f g h i j k l m n o) := tm in
  mkTimings a b c d e f g h v j k l m n o.
Definition set_TLSDuration (v : Duration) (tm : Timings) : Timings :=
  let '(mkTimings a b c d e f g h i j k l m n o) := tm in
  mkTimings a b c d e f g h i v k l m n o.
Definition set_TotalConnectionDuration (v : Duration) (tm : Timings) : Timings :=
  let '(mkTimings a b c d e f g h i j k l m n o) := tm in
  mkTimings a b c d e f g h i j v l m n o.
Definition set_RequestWriteDuration (v : Duration) (tm : Timings) : Timings :=
  let '(mkTimings a b c d e f g h i j k l m n o) := tm in
  mkTimings a b c d e f g h i j k v m n o.
Definition set_ResponseDelayDuration (v : Duration) (tm : Timings) : Timings :=
  let '(mkTimings a b c d e f g h i j k l m n o) := tm in
  mkTimings a b c d e f g h i j k l v n o.
Definition set_ResponseReadDuration (v : Duration) (tm : Timings) : Timings :=
  let '(mkTimings a b c d e f g h i j k l m n o) := tm in
  mkTimings a b c d e f g h i j k l m v o.
Definition set_TotalRequestDuration (v : Duration) (tm : Timings) : Timings :=
  let '(mkTimings a b c d e f g h i j k l m n o) := tm in
  mkTimings a b c d e f g h i j k l m n v.

(** The [Trace] struct.  [timings], [client] and [response] are pointers
    to objects that the tracer does not share for writing and are held
    by value; [client = None] and [response = None] are the nil
    pointers; [request] is a pointer shared with the caller and is an
    address in the store. *)
Record Trace := mkTrace {
  timings : Timings;
  client : option Client;
  request : nat;
  response : option Response;
  responseBody : string;
}.

Definition New (client : option Client) (request : nat) : Trace :=
  {| timings := Timings_zero;
     client := client;
     request := request;
     response := None;
     responseBody := "" |}.

(** The state a method of [*Trace] works on: the receiver, the store and
    what has been written to [os.Stderr]. *)
Record State := mkState {
  this : Trace;
  heap : Heap;
  stderr : list string;
}.

(** [t.request.Header.Set(key, value)] on the store: reading the field
    of a nil request and assigning into a nil map panic. *)
Definition request_Header_Set {platform : Platform} (key value : string) (w : State)
  : result State :=
  match requests (heap w) !! request (this w) with
  | None => Panic NilPointerDereference
  | Some r =>
      match headers (heap w) !! req_Header r with
      | None => Panic NilMapAssignment
      | Some h =>
          Ok {| this := this w;
                heap := {| requests := requests (heap w);
                           headers := <[req_Header r := Header_Set h key value]>
                                        (headers (heap w));
                           bodies := bodies (heap w) |};
                stderr := stderr w |}
      end
  end.

Fixpoint SetHeaders {platform : Platform} (raw : list string) (w : State) : result State :=
  match raw with
  | [] => Ok w
  | full :: raw' =>
      let split := SplitN_2 full ":" in
      s0 ← index split 0;
      let headerTrim := TrimSpace s0 in
      s1 ← index split 1;
      let valueTrim := TrimSpace s1 in
      w' ← request_Header_Set headerTrim valueTrim w;
      SetHeaders raw' w'
  end.

(** The body of each observer installed by [Execute] (lines 68-102). *)
Definition observe (tm : Timings) (e : event) : Timings :=
  match e with
  | GetConn now => set_getConnStart now tm
  | GotConn Reused now now' =>
      let tm :=
        if negb Reused
        then set_TotalConnectionDuration (Duration_sub now (getConnStart tm)) tm
        else tm in
      set_requestStart now' tm
  | GotFirstResponseByte now now' =>
      let tm := set_ResponseDelayDuration (Duration_sub now (delayStart tm)) tm in
      set_responseStart now' tm
  | DNSStart now => set_dnsStart now tm
  | DNSDone now => set_DNSDuration (Duration_sub now (dnsStart tm)) tm
  | ConnectStart now => set_connectStart now tm
  | ConnectDone now =>
      set_ConnectionDialDuration (Duration_sub now (connectStart tm)) tm
  | TLSHandshakeStart now => set_tlsStart now tm
  | TLSHandshakeDone now => set_TLSDuration (Duration_sub now (tlsStart tm)) tm
  | WroteRequest now now' =>
      let tm := set_RequestWriteDuration (Duration_sub now (requestStart tm)) tm in
      set_delayStart now' tm
  end.

(** Line 105: [t.request = t.request.WithContext(httptrace.WithClientTrace(
    t.request.Context(), trace))].  The copy is a new object of the
    store; the object [t.request] pointed to is not written. *)
Definition attach_trace (w : State) : result State :=
  r ← deref (requests (heap w)) (request (this w));
  let derived := WithContext r (WithClientTrace (req_ctx r)) in
  let t := this w in
  Ok {| this := {| timings := timings t;
                   client := client t;
                   request := length (requests (heap w));
                   response := response t;
                   responseBody := responseBody t |};
        heap := {| requests := requests (heap w) ++ [derived];
                   headers := headers (heap w);
                   bodies := bodies (heap w) |};
        stderr := stderr w |}.

(** Line 106, [t.client.Do(t.request)], for the store and the request
    address it is called with: the client and the store the call
    leaves.  A nil client panics.  (Go's client gives up on a request
    without URL before it reads a field of its own, so that for such a
    request a nil client returns an error; the model has the panic
    there too, and nothing below is stated about a nil client and a
    request without URL.) *)
Definition client_Do (c : option Client) (σ : Heap) (p : nat) : result (Client * Heap) :=
  match c with
  | None => Panic NilPointerDereference
  | Some c => σ' ← Do_store c σ p; Ok (c, σ')
  end.

(** What the client does when [Execute] runs from [w]: the observers it
    fires and what [t.client.Do(t.request)] returns, when the call is
    reached and returns. *)
Definition exchange (w : State) : option (list event * (error + Response)) :=
  match attach_trace w with
  | Ok w1 =>
      match client_Do (client (this w1)) (heap w1) (request (this w1)) with
      | Ok (c, _) => Some (Do c (heap w1) (request (this w1)))
      | Panic _ => None
      end
  | Panic _ => None
  end.

(** [Execute].  [requestStartTime] and [finishTime] are the readings of
    [timeSinceStart()] at lines 65 and 123.  The store after the call is
    the one the client leaves. *)
Definition Execute (requestStartTime finishTime : Duration) (w : State)
  : result (option error * State) :=
  w1 ← attach_trace w;
  let t := this w1 in
  '(c, σ) ← client_Do (client t) (heap w1) (request t);
  let '(fired, res) := Do c (heap w1) (request t) in
  let tm := foldl observe (timings t) fired in
  match res with
  | inl err =>
      Ok (Some (Errorf_w "error sending request: " err),
          {| this := mkTrace tm (client t) (request t) (response t) (responseBody t);
             heap := σ;
             stderr := stderr w1 |})
  | inr resp =>
      let '(responseBody, out) :=
        match body_err (resp_Body resp) with
        | Some err =>
            let readingBodyError := "Error reading response body: " +:+ Error err in
            (readingBodyError, stderr w1 ++ [readingBodyError +:+ LF])
        | None => (body_data (resp_Body resp), stderr w1)
        end in
      let tm := set_ResponseReadDuration
                  (Duration_sub finishTime (responseStart tm)) tm in
      let tm := set_TotalRequestDuration
                  (Duration_sub finishTime requestStartTime) tm in
      Ok (None,
          {| this := mkTrace tm (client t) (request t) (Some resp) responseBody;
             heap := σ;
             stderr := out |})
  end.

Definition GetResponse (w : State) : option Response * State :=
  (response (this w), w).

Definition GetResponseBody (w : State) : string * State :=
  (responseBody (this w), w).

Definition GetTimings (w : State) : Timings * State :=
  (timings (this w), w).

End trace.

(** ** Writers

    An [io.Writer] as [fmt.Fprint] sees it: it takes the text it is
    handed, or refuses it with an error and takes nothing. *)
Record Writer := {
  written : list string;
  fault : option error;
}.

(** [fmt.Fprint(w, s)]: the writer afterwards and the error. *)
Definition Fprint (w : Writer) (s : string) : Writer * option error :=
  match fault w with
  | Some err => (w, Some err)
  | None => ({| written := written w ++ [s]; fault := None |}, None)
  end.

(** ** Package report (report/report.go) *)

(** The order in which the Go run time enumerates the keys of a map is
    unspecified and changes from one run to the next: an enumeration is
    any arrangement of the map's keys. *)
Class MapIteration := {
  MapKeys : Header → list string;
  MapKeys_keys : ∀ h : Header, MapKeys h ≡ₚ elements (dom h);
}.

Module report.

Record Presentation := {
  SuppressHeaders : bool;
  SuppressBody : bool;
}.

(** The pointers of [reportData]: [Request] is an address in the store,
    the others are held by value, [None] being nil. *)
Record reportData := {
  Request : nat;
  Response : option http.Response;
  ResponseBody : string;
  Timings : option trace.Timings;
  Presentation' : option Presentation;
}.

Record Report := {
  data : reportData;
  output : string;
}.

Definition New (req : nat) (res : option http.Response) (body : string)
    (result : option trace.Timings) (pres : option Presentation) : Report :=
  {| data := {| Request := req;
                Response := res;
                ResponseBody := body;
                Timings := result;
                Presentation' := pres |};
     output := "" |}.

Section Render.
Context {platform : Platform} {run : MapIteration}.

(** [tmplFuncs]: ["durationMillis"] and ["stringsJoin"] (which is
    [strings.Join]). *)
Definition durationMillis (duration : Duration) : string :=
  formatMillis duration.

Definition stringsJoin : list string → string → string := Join.

(** [{{- range $key, $value := m }}] LF [prefix {{ $key }}: {{stringsJoin
    $value "" }}] LF [{{- end }}]: text/template enumerates the keys of
    the map, sorts them and visits them in that order; the trim marker
    of [{{- end }}] removes the line feed after each entry. *)
Definition range_header (prefix : string) (m : Header) : string :=
  foldr (λ key out,
           LF +:+ prefix +:+ key +:+ ": " +:+ stringsJoin (m !!! key) "" +:+ out)
        "" (merge_sort String.le (MapKeys m)).

(** The trace section of [outputTmpl], from the empty line before
    [Trace] to the end. *)
Definition trace_section (tm : trace.Timings) : string :=
  LF +:+ LF +:+ "Trace" +:+ LF +:+
  "  Request" +:+ LF +:+
  "    Connection" +:+ LF +:+
  "      DNS Resolution:  " +:+ durationMillis (trace.DNSDuration tm) +:+ LF +:+
  "      Connecting:      " +:+ durationMillis (trace.ConnectionDialDuration tm) +:+ LF +:+
  "      TLS handshake:   " +:+ durationMillis (trace.TLSDuration tm) +:+ LF +:+
  "    Connection total:  " +:+ durationMillis (trace.TotalConnectionDuration tm) +:+ LF +:+
  LF +:+
  "    Request write:     " +:+ durationMillis (trace.RequestWriteDuration tm) +:+ LF +:+
  "    Response delay:    " +:+ durationMillis (trace.ResponseDelayDuration tm) +:+ LF +:+
  "    Response read:     " +:+ durationMillis (trace.ResponseReadDuration tm) +:+ LF +:+
  LF +:+
  "  Request total:       " +:+ durationMillis (trace.TotalRequestDuration tm) +:+ LF.

(** The request block: the request line, one line per request header
    and the closing [>]. *)
Definition request_line (r : http.Request) (u : URL) : string :=
  "> " +:+ req_Method r +:+ " " +:+ Host u +:+ Path u +:+ " " +:+ req_Proto r.

Definition request_block (σ : Heap) (r : http.Request) (u : URL) : string :=
  request_line r u +:+
  range_header "> " (default ∅ (headers σ !! req_Header r)) +:+
  LF +:+ ">".

Definition status_line (res : http.Response) : string :=
  LF +:+ "< " +:+ Status res.

(** [tmpl.Execute(b, r.data)] for [outputTmpl].  Reaching a field through
    a nil pointer stops the execution with an error (its message is
    abridged here); ranging over a nil map visits nothing. *)
Definition execute_outputTmpl (σ : Heap) (d : reportData) : error + string :=
  match requests σ !! Request d with
  | None => inl (errorString "nil pointer evaluating *http.Request.Method")
  | Some r =>
  match req_URL r with
  | None => inl (errorString "nil pointer evaluating *url.URL.Host")
  | Some u =>
  match Response d with
  | None => inl (errorString "nil pointer evaluating *http.Response.Status")
  | Some res =>
  match Presentation' d with
  | None =>
      inl (errorString "nil pointer evaluating *report.Presentation.SuppressHeaders")
  | Some pres =>
  match Timings d with
  | None => inl (errorString "nil pointer evaluating *trace.Timings.DNSDuration")
  | Some tm =>
      inr (request_block σ r u +:+
           status_line res +:+
           (if negb (SuppressHeaders pres)
            then range_header "< " (resp_Header res) else "") +:+
           (if negb (SuppressBody pres)
            then LF +:+ ResponseBody d else "") +:+
           trace_section tm)
  end end end end end.

(** [Build]: the error returned and the receiver after the call. *)
Definition Build (σ : Heap) (r : Report) : option error * Report :=
  match execute_outputTmpl σ (data r) with
  | inl err => (Some (Errorf_w "Error building report: " err), r)
  | inr out => (None, {| data := data r; output := out |})
  end.

End Render.

(** [Print]: the error returned and the writer after the call. *)
Definition Print (r : Report) (w : Writer) : option error * Writer :=
  let '(w', err) := Fprint w (output r) in
  match err with
  | Some err => (Some (Errorf_w "Error writing output: " err), w')
  | None => (None, w')
  end.

End report.

(** ** A concrete platform, for evaluating the model on examples

    [strings.TrimSpace] and [textproto.CanonicalMIMEHeaderKey] on ASCII
    text, and a decimal rendering of a duration in milliseconds with two
    places, rounded half to even on the exact value (Go rounds the
    [float64] product, which can differ on a tie).  The properties are
    stated for every [Platform]; this one is used in the examples. *)
Module ascii.

Fixpoint trim_left (s : string) : string :=
  match s with
  | EmptyString => EmptyString
  | String c s' => if Ascii.is_space c then trim_left s' else s
  end.

Fixpoint trim_right (s : string) : string :=
  match s with
  | EmptyString => EmptyString
  | String c s' =>
      match trim_right s' with
      | EmptyString => if Ascii.is_space c then EmptyString else String c EmptyString
      | rest => String c rest
      end
  end.

Definition TrimSpace (s : string) : string := trim_right (trim_left s).

Fixpoint all_space (s : string) : bool :=
  match s with
  | EmptyString => true
  | String c s' => Ascii.is_space c && all_space s'
  end.

Definition starts_with_space (s : string) : bool :=
  match s with
  | EmptyString => false
  | String c _ => Ascii.is_space c
  end.

Fixpoint ends_with_space (s : string) : bool :=
  match s with
  | EmptyString => false
  | String c EmptyString => Ascii.is_space c
  | String _ s' => ends_with_space s'
  end.

Definition between (lo hi : nat) (c : ascii) : bool :=
  (lo <=? nat_of_ascii c)%nat && (nat_of_ascii c <=? hi)%nat.

Definition validHeaderFieldByte (c : ascii) : bool :=
  between 97 122 c || between 65 90 c || between 48 57 c ||
  bool_decide (c ∈ String.list_ascii_of_string "!#$%&'*+-.^_`|~").

Fixpoint canonical (upper : bool) (s : string) : string :=
  match s with
  | EmptyString => EmptyString
  | String c s' =>
      let c' :=
        if upper && between 97 122 c then ascii_of_nat (nat_of_ascii c - 32)
        else if negb upper && between 65 90 c then ascii_of_nat (nat_of_ascii c + 32)
        else c in
      String c' (canonical (Ascii.eqb c' "-") s')
  end.

Definition CanonicalMIMEHeaderKey (s : string) : string :=
  if forallb validHeaderFieldByte (String.list_ascii_of_string s)
  then canonical true s else s.

Fixpoint spaces (n : nat) : string :=
  match n with
  | O => EmptyString
  | S n' => String " " (spaces n')
  end.

Definition pad_left (width : nat) (s : string) : string :=
  spaces (width - String.length s) +:+ s.

Definition formatMillis (d : Duration) : string :=
  let q := Z.abs d / 10000 in
  let r := Z.abs d mod 10000 in
  let hundredths :=
    if 2 * r <? 10000 then q
    else if 10000 <? 2 * r then q + 1
    else if Z.even q then q else q + 1 in
  let frac := pretty (Z.to_N (hundredths mod 100)) in
  let digits :=
    pretty (Z.to_N (hundredths / 100)) +:+ "." +:+
    (if (String.length frac <? 2)%nat then "0" +:+ frac else frac) in
  pad_left 9 (if d <? 0 then "-" +:+ digits else digits) +:+ "ms".

Definition platform : Platform :=
  Build_Platform TrimSpace CanonicalMIMEHeaderKey formatMillis.

End ascii.

(** Two enumeration orders of the run time: the store's own order and
    its reverse. *)
Definition iteration_forward : MapIteration :=
  {| MapKeys := λ h : Header, elements (dom h);
     MapKeys_keys := λ h, reflexivity _ |}.

Definition iteration_backward : MapIteration :=
  {| MapKeys := λ h : Header, reverse (elements (dom h));
     MapKeys_keys := λ h, reverse_Permutation _ |}.

(** ** Vocabulary of the statements *)

(** A raw header line has a colon. *)
Fixpoint has_colon (s : string) : bool :=
  match s with
  | EmptyString => false
  | String c s' => Ascii.eqb c ":" || has_colon s'
  end.

(** The text of a raw header line before its first colon, and the text
    after it. *)
Fixpoint before_colon (s : string) : string :=
  match s with
  | EmptyString => EmptyString
  | String c s' => if Ascii.eqb c ":" then EmptyString else String c (before_colon s')
  end.

Fixpoint after_colon (s : string) : string :=
  match s with
  | EmptyString => EmptyString
  | String c s' => if Ascii.eqb c ":" then s' else after_colon s'
  end.

(** Name and value that a raw header line stands for. *)
Definition header_name {platform : Platform} (full : string) : string :=
  TrimSpace (before_colon full).

Definition header_value {platform : Platform} (full : string) : string :=
  TrimSpace (after_colon full).

(** Setting the headers of a list of lines one after the other. *)
Definition set_all {platform : Platform} (h : Header) (raw : list string) : Header :=
  foldl (λ h full, Header_Set h (header_name full) (header_value full)) h raw.

(** [t] occurs in [s]. *)
Definition occurs_in (t s : string) : Prop :=
  ∃ pre post : string, s = pre +:+ t +:+ post.

(** The request of the tracer and its header map exist in the store. *)
Definition request_ready (w : trace.State) : Prop :=
  ∃ r h, requests (trace.heap w) !! trace.request (trace.this w) = Some r ∧
         headers (trace.heap w) !! req_Header r = Some h.

(** The state [w] with the header map at address [p] replaced by [h]. *)
Definition with_header_map (p : nat) (h : Header) (w : trace.State) : trace.State :=
  {| trace.this := trace.this w;
     trace.heap := {| requests := requests (trace.heap w);
                      headers := <[p := h]> (headers (trace.heap w));
                      bodies := bodies (trace.heap w) |};
     trace.stderr := trace.stderr w |}.

(** The request that line 105 derives from [r], and the state after that
    line. *)
Definition derived_request (r : Request) : Request :=
  WithContext r (WithClientTrace (req_ctx r)).

Definition attached (r : Request) (w : trace.State) : trace.State :=
  {| trace.this :=
       trace.mkTrace (trace.timings (trace.this w)) (trace.client (trace.this w))
         (length (requests (trace.heap w)))
         (trace.response (trace.this w)) (trace.responseBody (trace.this w));
     trace.heap := {| requests := requests (trace.heap w) ++ [derived_request r];
                      headers := headers (trace.heap w);
                      bodies := bodies (trace.heap w) |};
     trace.stderr := trace.stderr w |}.

(** What the client [c] answers when [Execute] hands it the derived
    request: the observers it fires and the response or the error; and
    the store it leaves. *)
Definition answer (c : Client) (r : Request) (w : trace.State)
  : list event * (error + Response) :=
  Do c (trace.heap (attached r w)) (length (requests (trace.heap w))).

Definition store_left (c : Client) (r : Request) (w : trace.State) : result Heap :=
  Do_store c (trace.heap (attached r w)) (length (requests (trace.heap w))).

(** The timing record after the observers [fired] have run. *)
Definition observed (w : trace.State) (fired : list event) : trace.Timings :=
  foldl trace.observe (trace.timings (trace.this w)) fired.



(** What [Execute] makes of the answer of the client: the error it
    returns, the response it stores and the timing record it leaves. *)
Definition error_of (res : error + Response) : option error :=
  match res with
  | inl err => Some (Errorf_w "error sending request: " err)
  | inr _ => None
  end.

Definition response_of (before : option Response) (res : error + Response)
  : option Response :=
  match res with
  | inl _ => before
  | inr resp => Some resp
  end.


(** What [Execute] writes at lines 123-125. *)
Definition finish (requestStartTime finishTime : Duration) (tm : trace.Timings)
  : trace.Timings :=
  trace.set_TotalRequestDuration (Duration_sub finishTime requestStartTime)
    (trace.set_ResponseReadDuration
       (Duration_sub finishTime (trace.responseStart tm)) tm).

Definition record_of (requestStartTime finishTime : Duration)
    (tm : trace.Timings) (answer : list event * (error + Response))
  : trace.Timings :=
  match answer.2 with
  | inl _ => foldl trace.observe tm answer.1
  | inr _ => finish requestStartTime finishTime (foldl trace.observe tm answer.1)
  end.

(** *** One round trip of the platform's client

    The observers of a single round trip fire in this order: [GetConn];
    for a connection that is dialled, the DNS lookup, the dial and the
    TLS handshake, each with its start and its end and each of them
    optional, then [GotConn] with [Reused = false]; for a connection
    taken from the pool, [GotConn] with [Reused = true] alone; then
    [WroteRequest] and [GotFirstResponseByte].  The numbers are the
    clock readings taken inside the observers. *)
Inductive connection :=
| Dialled (dns dial tls : option (Duration * Duration)) (got : Duration)
| Pooled.

Record round_trip := {
  at_GetConn : Duration;
  conn : connection;
  at_requestStart : Duration;
  at_Wrote : Duration * Duration;
  at_FirstByte : Duration * Duration;
}.

Definition span (start done : Duration → event)
    (o : option (Duration * Duration)) : list event :=
  match o with
  | Some (a, b) => [start a; done b]
  | None => []
  end.

Definition schedule (rt : round_trip) : list event :=
  GetConn (at_GetConn rt) ::
  match conn rt with
  | Dialled dns dial tls got =>
      span DNSStart DNSDone dns ++ span ConnectStart ConnectDone dial ++
      span TLSHandshakeStart TLSHandshakeDone tls ++
      [GotConn false got (at_requestStart rt)]
  | Pooled => [GotConn true (at_requestStart rt) (at_requestStart rt)]
  end ++
  [WroteRequest (at_Wrote rt).1 (at_Wrote rt).2;
   GotFirstResponseByte (at_FirstByte rt).1 (at_FirstByte rt).2].

Definition span_readings (o : option (Duration * Duration)) : list Duration :=
  match o with
  | Some (a, b) => [a; b]
  | None => []
  end.

(** All clock readings of [Execute] over one round trip, in the order
    in which they are taken. *)
Definition readings (requestStartTime : Duration) (rt : round_trip)
    (finishTime : Duration) : list Duration :=
  requestStartTime :: at_GetConn rt ::
  match conn rt with
  | Dialled dns dial tls got =>
      span_readings dns ++ span_readings dial ++ span_readings tls ++ [got]
  | Pooled => []
  end ++
  [at_requestStart rt; (at_Wrote rt).1; (at_Wrote rt).2;
   (at_FirstByte rt).1; (at_FirstByte rt).2; finishTime].

(** The clock is monotonic and its readings fit [int64]. *)
Fixpoint ascending (lo : Z) (l : list Z) : Prop :=
  match l with
  | [] => lo < 2 ^ 63
  | x :: l' => lo ≤ x ∧ ascending x l'
  end.



(** Observers that also fire when the connection comes from the pool. *)
Definition pooled_event (e : event) : bool :=
  match e with
  | GetConn _ | GotConn true _ _ | WroteRequest _ _
  | GotFirstResponseByte _ _ => true
  | _ => false
  end.

(** ** Concrete exchanges and reports *)
Module example.

(** A client without a cookie jar that fires the same observers and
    returns the same result whatever it is sent, and reads the body of
    the request to its end. *)
Definition scripted (fired : list event) (res : error + Response) : Client :=
  {| Do := λ _ _, (fired, res);
     Jar := None;
     Reads := λ σ p,
       match requests σ !! p with
       | Some r => from_option (λ b, String.length (unread b)) 0%nat
                     (bodies σ !! req_Body r)
       | None => 0%nat
       end |}.

(** [http.NewRequest("GET", "https://example.com", nil)]: the request is
    at address 0 of the store, its empty header map at address 0, its
    body nil. *)
Definition request0 : Request :=
  {| req_Method := "GET";
     req_URL := Some {| Scheme := "https"; Host := "example.com"; Path := "" |};
     req_Proto := "HTTP/1.1";
     req_Header := 0;
     req_Body := 0;
     req_ctx := Background |}.

Definition store0 : Heap :=
  {| requests := [request0]; headers := [∅]; bodies := [] |}.

Definition created (c : Client) : trace.State :=
  trace.mkState (trace.New (Some c) 0) store0 [].

(** The same request with the method [POST] and a body of six bytes. *)
Definition request1 : Request :=
  {| req_Method := "POST";
     req_URL := Some {| Scheme := "https"; Host := "example.com"; Path := "" |};
     req_Proto := "HTTP/1.1";
     req_Header := 0;
     req_Body := 0;
     req_ctx := Background |}.

Definition store1 : Heap :=
  {| requests := [request1];
     headers := [∅];
     bodies := [{| unread := "q=rocq"; closed := false |}] |}.

Definition posting (c : Client) : trace.State :=
  trace.mkState (trace.New (Some c) 0) store1 [].

Definition ok200 (b : Body) : Response :=
  {| Status := "200 OK"; StatusCode := 200; resp_Header := ∅; resp_Body := b |}.

Definition not_found : Response :=
  {| Status := "404 Not Found"; StatusCode := 404; resp_Header := ∅;
     resp_Body := {| body_data := "gone"; body_err := None |} |}.

(** A fresh TLS connection; readings in nanoseconds. *)
Definition tls_round_trip : round_trip :=
  {| at_GetConn := 1000;
     conn := Dialled (Some (2000, 2293000)) (Some (2300000, 24964000))
                     (Some (24970000, 324711000)) 324931000;
     at_requestStart := 324931100;
     at_Wrote := (324979000, 324979100);
     at_FirstByte := (805945000, 805945100) |}.

(** A connection taken from the pool. *)
Definition pooled_round_trip : round_trip :=
  {| at_GetConn := 1000;
     conn := Pooled;
     at_requestStart := 1500;
     at_Wrote := (49000, 49100);
     at_FirstByte := (100049000, 100049100) |}.

(** The client's timeout expires while it waits for the response: the
    connection was dialled and the request written. *)
Definition timeout_error : error :=
  errorString "context deadline exceeded (Client.Timeout exceeded while awaiting headers)".

Definition timed_out : Client :=
  scripted
    [GetConn 1000; ConnectStart 2000; ConnectDone 300000;
     GotConn false 301000 301100; WroteRequest 350000 350100]
    (inl timeout_error).

(** The client follows one redirect: the observers fire once for the
    round trip that is answered by the redirect and once more for the
    round trip to the new address. *)
Definition first_hop : round_trip :=
  {| at_GetConn := 1000;
     conn := Dialled None (Some (2000, 20002000)) None 20003000;
     at_requestStart := 20003100;
     at_Wrote := (20050000, 20050100);
     at_FirstByte := (120000000, 120000100) |}.



(** A response whose body cannot be read to its end. *)
Definition broken_body : Response :=
  ok200 {| body_data := "<html>"; body_err := Some (errorString "unexpected EOF") |}.

Definition cut_short : Client :=
  scripted (schedule pooled_round_trip) (inr broken_body).

Definition answered_404 : Client :=
  scripted (schedule tls_round_trip) (inr not_found).

Definition pooled : Client :=
  scripted (schedule pooled_round_trip)
           (inr (ok200 {| body_data := "ok"; body_err := None |})).

(** A client whose cookie jar holds one cookie for the request. *)
Definition with_jar : Client :=
  {| Do := λ _ _, (schedule pooled_round_trip,
                   inr (ok200 {| body_data := "ok"; body_err := None |}));
     Jar := Some (λ _ _, ["session=42"]);
     Reads := λ _ _, 6%nat |}.

(** The data of [TestReport] (report/report_test.go). *)
Definition test_request : Request :=
  {| req_Method := "GET";
     req_URL := Some {| Scheme := "https"; Host := "thing.com"; Path := "" |};
     req_Proto := "HTTP/1.1";
     req_Header := 0;
     req_Body := 0;
     req_ctx := Background |}.

Definition test_store : Heap :=
  {| requests := [test_request]; headers := [{["X-Hello" := ["hi"]]}];
     bodies := [] |}.

Definition test_response : Response :=
  {| Status := "200 OK";
     StatusCode := 200;
     resp_Header :=
       <["Content-Type" := ["text/html; charset=utf-8"]]>
         (<["Vary" := ["Accept-Encoding"]]>
            {["X-Some-Header" := ["one"; "two"; "three"]]});
     resp_Body := {| body_data := ""; body_err := None |} |}.

Definition test_body : string :=
  "<html>" +:+ LF +:+ "<head>" +:+ LF +:+
  "<title>Welcome to nginx!</title>" +:+ LF +:+ "</head>" +:+ LF +:+
  "<body bgcolor=" +:+ String "034" "white" +:+ String "034" " text=" +:+
  String "034" "black" +:+ String "034" ">" +:+ LF +:+
  "<center><h1>Welcome to the website!</h1></center>" +:+ LF +:+
  "</body>" +:+ LF +:+ "</html>".

Definition test_timings : trace.Timings :=
  trace.mkTimings 0 0 0 0 0 0 0
    (2293 * 1000) (22664 * 1000) (299741 * 1000) (324931 * 1000)
    (48 * 1000) (480966 * 1000) (22933 * 1000) (828987 * 1000).

Definition test_report (suppressHeaders suppressBody : bool) : report.Report :=
  report.New 0 (Some test_response) test_body (Some test_timings)
    (Some {| report.SuppressHeaders := suppressHeaders;
             report.SuppressBody := suppressBody |}).

Definition expectedRequestHeadersOutput : string :=
  "> GET thing.com HTTP/1.1" +:+ LF +:+ "> X-Hello: hi" +:+ LF +:+ ">" +:+ LF.

Definition expectedResponseStatusOutput : string := "< 200 OK" +:+ LF.

Definition expectedResponseHeadersOutput : string :=
  "< Content-Type: text/html; charset=utf-8" +:+ LF +:+
  "< Vary: Accept-Encoding" +:+ LF +:+
  "< X-Some-Header: onetwothree" +:+ LF.

Definition expectedTraceOutput : string :=
  "Trace" +:+ LF +:+
  "  Request" +:+ LF +:+
  "    Connection" +:+ LF +:+
  "      DNS Resolution:       2.29ms" +:+ LF +:+
  "      Connecting:          22.66ms" +:+ LF +:+
  "      TLS handshake:      299.74ms" +:+ LF +:+
  "    Connection total:     324.93ms" +:+ LF +:+
  LF +:+
  "    Request write:          0.05ms" +:+ LF +:+
  "    Response delay:       480.97ms" +:+ LF +:+
  "    Response read:         22.93ms" +:+ LF +:+
  LF +:+
  "  Request total:          828.99ms" +:+ LF.

End example.

(** ** Package main (main.go)

    What [flag.Parse] leaves in the variables of [main], and
    [flag.Args()]. *)
Module main.

Record Flags := {
  method : string;
  requestHeaders : list string;
  requestBody : string;
  timeout : Z;
  suppressResponseHeaders : bool;
  suppressResponseBody : bool;
  args : list string;
}.

(** What [main] meets outside the repository: [http.NewRequest] (called
    on an empty store, it returns an error or the address of the request
    it has built), what [Do] fires and returns and how much of the body
    the transport reads for a client with a given timeout and the
    default transport, the two clock readings of [Execute], and the
    error of a write to [os.Stdout] when it fails. *)
Record World := {
  NewRequest : string → string → string → (error + nat) * Heap;
  network : Duration → Heap → nat → list event * (error + Response);
  reads : Duration → Heap → nat → nat;
  clock : Duration * Duration;
  stdout_fault : option error;
}.

(** What the process has written when it ends, and its exit status. *)
Record Exit := {
  stdout : list string;
  stderr : list string;
  status : Z;
}.

(** [headerSlice.Set] *)
Definition headerSlice_Set (value : string) (h : list string)
  : option error * list string :=
  (None, h ++ [value]).

(** [exitWithError(err)], for a process that has written [out] and
    [errs] so far. *)
Definition exitWithError (err : error) (out errs : list string) : Exit :=
  {| stdout := out;
     stderr := errs ++ ["Error: " +:+ Error err +:+ LF];
     status := 1 |}.

(** Lines 110-112: [&http.Client{Timeout: time.Duration(timeout) *
    time.Second}], a pointer to a client without a cookie jar. *)
Definition httpClient (env : World) (f : Flags) : option Client :=
  Some {| Do := network env (wrap64 (timeout f * 1000000000));
          Jar := None;
          Reads := reads env (wrap64 (timeout f * 1000000000)) |}.

(** How [flag.Parse] ends (the flag set exits on error): it returns and
    leaves the flags, or it ends the process itself, with status 2 after
    a flag it rejects and with status 0 after [-h] or [-help], in both
    cases after writing its message and the usage to the standard error
    stream. *)
Inductive Parse :=
| Returned (f : Flags)
| Rejected (message : list string)
| Help (usage : list string).

Section Main.
Context {platform : Platform} {run : MapIteration}.

(** [main], from the return of [flag.Parse]. *)
Definition main (env : World) (f : Flags) : result Exit :=
  match args f with
  | [] => Ok (exitWithError (errorString "no url specified") [] [])
  | url :: _ =>
      let httpClient := httpClient env f in
      match NewRequest env (method f) url (requestBody f) with
      | (inl err, _) => Ok (exitWithError err [] [])
      | (inr req, σ) =>
          let tracedRequest := trace.mkState (trace.New httpClient req) σ [] in
          w ← trace.SetHeaders (requestHeaders f) tracedRequest;
          executed ← trace.Execute (clock env).1 (clock env).2 w;
          match executed with
          | (Some err, w) => Ok (exitWithError err [] (trace.stderr w))
          | (None, w) =>
              let '(resp, w) := trace.GetResponse w in
              let '(responseBody, w) := trace.GetResponseBody w in
              let '(timings, w) := trace.GetTimings w in
              let presentation :=
                {| report.SuppressHeaders := suppressResponseHeaders f;
                   report.SuppressBody := suppressResponseBody f |} in
              let output :=
                report.New req resp responseBody (Some timings) (Some presentation) in
              match report.Build (trace.heap w) output with
              | (Some err, _) => Ok (exitWithError err [] (trace.stderr w))
              | (None, output) =>
                  match report.Print output
                          {| written := []; fault := stdout_fault env |} with
                  | (Some err, out) =>
                      Ok (exitWithError err (written out) (trace.stderr w))
                  | (None, out) =>
                      Ok {| stdout := written out;
                            stderr := trace.stderr w;
                            status := 0 |}
                  end
              end
          end
      end
  end.

(** [main], from its start. *)
Definition program (env : World) (parse : Parse) : result Exit :=
  match parse with
  | Returned f => main env f
  | Rejected message => Ok {| stdout := []; stderr := message; status := 2 |}
  | Help usage => Ok {| stdout := []; stderr := usage; status := 0 |}
  end.

End Main.

End main.

(** ** More vocabulary *)

(** The observers that close a phase. *)
Definition closes_DNS (e : event) : bool :=
  match e with DNSDone _ => true | _ => false end.

Definition closes_dial (e : event) : bool :=
  match e with ConnectDone _ => true | _ => false end.

Definition closes_TLS (e : event) : bool :=
  match e with TLSHandshakeDone _ => true | _ => false end.

Definition closes_setup (e : event) : bool :=
  match e with GotConn false _ _ => true | _ => false end.

Definition closes_write (e : event) : bool :=
  match e with WroteRequest _ _ => true | _ => false end.

Definition closes_delay (e : event) : bool :=
  match e with GotFirstResponseByte _ _ => true | _ => false end.

(** No observer of [fired] satisfies [p]. *)
Definition never (p : event → bool) (fired : list event) : Prop :=
  forallb (λ e, negb (p e)) fired = true.

(** The length of a phase that has a start and an end. *)
Definition span_length (o : option (Duration * Duration)) : Z :=
  match o with
  | Some (a, b) => b - a
  | None => 0
  end.

(** The texts of a list one after the other. *)
Definition concat_strings (l : list string) : string :=
  foldr String.append "" l.

(** The line of one header in the report. *)
Definition header_line (prefix key : string) (values : list string) : string :=
  LF +:+ prefix +:+ key +:+ ": " +:+ concat_strings values.

(** Everything [outputTmpl] reaches through a pointer is there. *)
Definition report_ready (σ : Heap) (d : report.reportData) : Prop :=
  (∃ req, requests σ !! report.Request d = Some req ∧ is_Some (req_URL req)) ∧
  is_Some (report.Response d) ∧
  is_Some (report.Presentation' d) ∧
  is_Some (report.Timings d).

(** The output of a report whose pointers are all there. *)
Definition layout {platform : Platform} {run : MapIteration} (σ : Heap)
    (req : Request) (u : URL) (res : Response) (body : string)
    (tm : trace.Timings) (suppressHeaders suppressBody : bool) : string :=
  report.request_block σ req u +:+ report.status_line res +:+
  (if suppressHeaders then "" else report.range_header "< " (resp_Header res)) +:+
  (if suppressBody then "" else LF +:+ body) +:+
  report.trace_section tm.

(** ** A run of the program *)
Module scenario.

(** [http.NewRequest] for [http-trace -H ... https://example.com]: the
    request of [example.request0] at address 0, with a new header map. *)
Definition world (c : Client) (stdout_fault : option error) : main.World :=
  {| main.NewRequest := λ _ _ _, (inr 0%nat, example.store0);
     main.network := λ _, Do c;
     main.reads := λ _, Reads c;
     main.clock := (100, 100120000);
     main.stdout_fault := stdout_fault |}.

Definition flags (headers : list string) (args : list string) : main.Flags :=
  {| main.method := "GET";
     main.requestHeaders := headers;
     main.requestBody := "";
     main.timeout := 5;
     main.suppressResponseHeaders := true;
     main.suppressResponseBody := false;
     main.args := args |}.

(** A tracer whose request pointer is nil, one whose request has a nil
    header map, and one whose client pointer is nil. *)
Definition no_request : trace.State :=
  trace.mkState (trace.New (Some example.pooled) 0)
    {| requests := []; headers := []; bodies := [] |} [].

Definition no_header_map : trace.State :=
  trace.mkState (trace.New (Some example.pooled) 0)
    {| requests := [example.request0]; headers := []; bodies := [] |} [].

Definition no_client : trace.State :=
  trace.mkState (trace.New None 0) example.store0 [].

(** A store in which the request already has two headers. *)
Definition store_with_headers : Heap :=
  {| requests := [example.request0];
     headers := [<["Accept" := ["*/*"]]> {["X-Hello" := ["hi"]]}];
     bodies := [] |}.

Definition with_headers : trace.State :=
  trace.mkState (trace.New (Some example.pooled) 0) store_with_headers [].

Definition with_headers_reset : trace.State :=
  trace.mkState (trace.New (Some example.pooled) 0)
    {| requests := [example.request0];
       headers := [<["Accept" := ["*/*"]]> {["X-Hello" := ["ho"]]}];
       bodies := [] |} [].

End scenario.

(** * Properties *)

(** ** Arithmetic of durations *)

Lemma wrap64_small (z : Z) : - 2 ^ 63 ≤ z < 2 ^ 63 → wrap64 z = z.
Proof.
  intros Hz. unfold wrap64.
  rewrite Z.mod_small by lia. lia.
Qed.

Lemma Duration_sub_exact (a b : Duration) :
  0 ≤ b → b ≤ a → a < 2 ^ 63 → Duration_sub a b = a - b.
Proof.
  intros Hb Hab Ha. unfold Duration_sub. apply wrap64_small. lia.
Qed.

Lemma Duration_sub_0_0 : Duration_sub 0 0 = 0.
Proof. reflexivity. Qed.

(** ** Splitting a raw header line *)

Lemma Cut_colon (s : string) :
  Cut ":" s = if has_colon s then Some (before_colon s, after_colon s) else None.
Proof.
  induction s as [|c s IH]; simpl; [done|].
  destruct (Ascii.eqb c ":"); simpl; [done|].
  rewrite IH. by destruct (has_colon s).
Qed.

Lemma SplitN_2_colon (s : string) :
  SplitN_2 s ":" =
  if has_colon s then [before_colon s; after_colon s] else [s].
Proof. unfold SplitN_2. rewrite Cut_colon. by destruct (has_colon s). Qed.

(** The cut is at the first colon: nothing before it is a colon. *)
Lemma first_colon (s : string) :
  has_colon s = true →
  s = before_colon s +:+ String ":" (after_colon s) ∧
  has_colon (before_colon s) = false.
Proof.
  induction s as [|c s IH]; simpl; [done|].
  destruct (Ascii.eqb c ":") eqn:Hc; simpl.
  - intros _. apply Ascii.eqb_eq in Hc as ->. done.
  - intros Hs. destruct (IH Hs) as [Heq Hno]. rewrite Hc. simpl.
    split; [|done].
    change (String c s = String c (before_colon s +:+ String ":" (after_colon s))).
    by f_equal.
Qed.

(** ** SetHeaders *)

Section SetHeaders.
Context {platform : Platform}.

Lemma with_header_map_id (w : trace.State) (p : nat) (h : Header) :
  headers (trace.heap w) !! p = Some h → with_header_map p h w = w.
Proof.
  destruct w as [t [rs hs] out]. unfold with_header_map. simpl. intros Hh.
  by rewrite list_insert_id.
Qed.

Lemma with_header_map_twice (w : trace.State) (p : nat) (h1 h2 : Header) :
  with_header_map p h2 (with_header_map p h1 w) = with_header_map p h2 w.
Proof.
  unfold with_header_map. simpl. by rewrite list_insert_insert_eq.
Qed.

Lemma request_Header_Set_ok (w : trace.State) (r : Request) (h : Header)
    (key value : string) :
  requests (trace.heap w) !! trace.request (trace.this w) = Some r →
  headers (trace.heap w) !! req_Header r = Some h →
  trace.request_Header_Set key value w =
  Ok (with_header_map (req_Header r) (Header_Set h key value) w).
Proof.
  intros Hr Hh. unfold trace.request_Header_Set. by rewrite Hr, Hh.
Qed.

Lemma SetHeaders_cons (full : string) (raw : list string) (w : trace.State) :
  trace.SetHeaders (full :: raw) w =
  if has_colon full
  then w' ← trace.request_Header_Set (header_name full) (header_value full) w;
       trace.SetHeaders raw w'
  else Panic IndexOutOfRange.
Proof.
  simpl. rewrite SplitN_2_colon. by destruct (has_colon full).
Qed.

Lemma SetHeaders_ok (raw : list string) :
  ∀ (w : trace.State) (r : Request) (h : Header),
    requests (trace.heap w) !! trace.request (trace.this w) = Some r →
    headers (trace.heap w) !! req_Header r = Some h →
    Forall (λ full, has_colon full = true) raw →
    trace.SetHeaders raw w = Ok (with_header_map (req_Header r) (set_all h raw) w).
Proof.
  induction raw as [|full raw IH]; intros w r h Hr Hh Hall.
  - simpl. by rewrite with_header_map_id.
  - apply Forall_cons in Hall as [Hfull Hall].
    rewrite SetHeaders_cons, Hfull.
    rewrite (request_Header_Set_ok w r h) by done. simpl.
    rewrite (IH _ r (Header_Set h (header_name full) (header_value full))); try done.
    + by rewrite with_header_map_twice.
    + simpl. apply list_lookup_insert_eq. by eapply lookup_lt_Some.
Qed.

Lemma SetHeaders_cases (raw : list string) :
  ∀ w : trace.State,
    request_ready w →
    (Forall (λ full, has_colon full = true) raw ∧
     ∃ w', trace.SetHeaders raw w = Ok w') ∨
    (Exists (λ full, has_colon full = false) raw ∧
     trace.SetHeaders raw w = Panic IndexOutOfRange).
Proof.
  induction raw as [|full raw IH]; intros w (r & h & Hr & Hh).
  - left. split; [constructor | by exists w].
  - rewrite SetHeaders_cons. destruct (has_colon full) eqn:Hfull.
    + rewrite (request_Header_Set_ok w r h) by done. simpl.
      destruct (IH (with_header_map (req_Header r)
                      (Header_Set h (header_name full) (header_value full)) w))
        as [[Hall Hok]|[Hex Hpanic]].
      * exists r, (Header_Set h (header_name full) (header_value full)).
        split; [done|]. simpl. apply list_lookup_insert_eq.
        by eapply lookup_lt_Some.
      * left. split; [by constructor | done].
      * right. split; [by apply Exists_cons_tl | done].
    + right. split; [by apply Exists_cons_hd | done].
Qed.

Lemma set_all_untouched (key : string) (raw : list string) :
  ∀ h : Header,
    Forall (λ later, CanonicalMIMEHeaderKey (header_name later) ≠ key) raw →
    set_all h raw !! key = h !! key.
Proof.
  induction raw as [|full raw IH]; intros h Hall; [done|].
  apply Forall_cons in Hall as [Hfull Hall].
  unfold set_all in *. simpl. rewrite IH by done.
  unfold Header_Set. by rewrite lookup_insert_ne.
Qed.

Lemma set_all_last (h : Header) (before after : list string) (full : string) :
  Forall (λ later, CanonicalMIMEHeaderKey (header_name later) ≠
                   CanonicalMIMEHeaderKey (header_name full)) after →
  set_all h (before ++ full :: after) !! CanonicalMIMEHeaderKey (header_name full)
  = Some [header_value full].
Proof.
  intros Hafter. unfold set_all. rewrite foldl_app. simpl.
  fold (set_all h before).
  pose proof (set_all_untouched (CanonicalMIMEHeaderKey (header_name full)) after
                (Header_Set (set_all h before) (header_name full) (header_value full))
                Hafter) as Hkeep.
  unfold set_all in Hkeep at 1. rewrite Hkeep.
  unfold Header_Set. by rewrite lookup_insert_eq.
Qed.

(** C3.  When the tracer's request and its header map exist,
    [SetHeaders] returns normally on every list whose entries all have a
    colon, and it panics with an index out of range exactly when some
    entry has no colon (the access [split[1]] on the one-element result
    of the split). *)
Theorem SetHeaders_out_of_range_iff_no_colon (raw : list string) (w : trace.State) :
  request_ready w →
  (Forall (λ full, has_colon full = true) raw →
   ∃ w', trace.SetHeaders raw w = Ok w') ∧
  (trace.SetHeaders raw w = Panic IndexOutOfRange ↔
   Exists (λ full, has_colon full = false) raw).
Proof.
  intros Hready.
  destruct (SetHeaders_cases raw w Hready) as [[Hall [w' Hok]]|[Hex Hpanic]].
  - split; [by eauto|]. split.
    + rewrite Hok. discriminate.
    + intros Hex. exfalso. apply Exists_exists in Hex as (full & Hin & Hno).
      rewrite Forall_forall in Hall. specialize (Hall full Hin). congruence.
  - split; [|done].
    intros Hall. exfalso. apply Exists_exists in Hex as (full & Hin & Hno).
    rewrite Forall_forall in Hall. specialize (Hall full Hin). congruence.
Qed.

(** C7.  On a list of raw header lines that all have a colon,
    [SetHeaders] returns normally and leaves everything unchanged but the
    header map of the request, which is the old map with, for each line
    in turn, the header named by the trimmed text before the first colon
    set to the trimmed text after it.  Setting replaces: after the call
    the name of a line holds exactly the one value of the last line that
    has this name, whatever was stored or set under it before. *)
Theorem SetHeaders_sets_trimmed_headers (raw : list string) (w : trace.State)
    (r : Request) (h : Header) :
  requests (trace.heap w) !! trace.request (trace.this w) = Some r →
  headers (trace.heap w) !! req_Header r = Some h →
  Forall (λ full, has_colon full = true) raw →
  trace.SetHeaders raw w = Ok (with_header_map (req_Header r) (set_all h raw) w) ∧
  (∀ full, full ∈ raw →
     full = before_colon full +:+ String ":" (after_colon full) ∧
     has_colon (before_colon full) = false) ∧
  (∀ before full after,
     raw = before ++ full :: after →
     Forall (λ later, CanonicalMIMEHeaderKey (header_name later) ≠
                      CanonicalMIMEHeaderKey (header_name full)) after →
     set_all h raw !! CanonicalMIMEHeaderKey (header_name full)
       = Some [header_value full] ∧
     Header_Get (set_all h raw) (header_name full) = header_value full).
Proof.
  intros Hr Hh Hall. split; [by apply SetHeaders_ok|]. split.
  - intros full Hin. apply first_colon.
    rewrite Forall_forall in Hall. by apply Hall.
  - intros before full after -> Hafter.
    pose proof (set_all_last h before after full Hafter) as Hlast.
    split; [done|]. unfold Header_Get. by rewrite Hlast.
Qed.

End SetHeaders.

(** ** Execute *)

Lemma attach_trace_ok (w : trace.State) (r : Request) :
  requests (trace.heap w) !! trace.request (trace.this w) = Some r →
  trace.attach_trace w = Ok (attached r w).
Proof.
  intros Hr. unfold trace.attach_trace, deref. by rewrite Hr.
Qed.

Lemma exchange_Some (w : trace.State) (fired : list event) (res : error + Response) :
  trace.exchange w = Some (fired, res) →
  ∃ r c σ, requests (trace.heap w) !! trace.request (trace.this w) = Some r ∧
           trace.client (trace.this w) = Some c ∧
           store_left c r w = Ok σ ∧
           answer c r w = (fired, res).
Proof.
  unfold trace.exchange, trace.attach_trace, deref, store_left, answer.
  destruct (requests (trace.heap w) !! trace.request (trace.this w)) as [r|];
    simpl; [|done].
  destruct (trace.client (trace.this w)) as [c|]; simpl; [|done].
  destruct (Do_store c _ _) as [σ|] eqn:Hstore; simpl; [|done].
  intros [= Hdo]. by exists r, c, σ.
Qed.

Lemma exchange_answer (w : trace.State) (r : Request) (c : Client) (σ : Heap) :
  requests (trace.heap w) !! trace.request (trace.this w) = Some r →
  trace.client (trace.this w) = Some c →
  store_left c r w = Ok σ →
  trace.exchange w = Some (answer c r w).
Proof.
  intros Hr Hc Hstore. unfold trace.exchange.
  rewrite (attach_trace_ok w r Hr). cbn [attached trace.this trace.heap
    trace.client trace.request]. rewrite Hc. unfold trace.client_Do.
  unfold store_left in Hstore. cbn [attached trace.heap] in Hstore.
  by rewrite Hstore.
Qed.

Lemma Execute_error (requestStartTime finishTime : Duration) (w : trace.State)
    (fired : list event) (err : error) :
  trace.exchange w = Some (fired, inl err) →
  ∃ r c σ, requests (trace.heap w) !! trace.request (trace.this w) = Some r ∧
    trace.client (trace.this w) = Some c ∧
    store_left c r w = Ok σ ∧
    trace.Execute requestStartTime finishTime w =
    Ok (Some (Errorf_w "error sending request: " err),
        {| trace.this :=
             trace.mkTrace (observed w fired) (trace.client (trace.this w))
               (length (requests (trace.heap w)))
               (trace.response (trace.this w)) (trace.responseBody (trace.this w));
           trace.heap := σ;
           trace.stderr := trace.stderr w |}).
Proof.
  intros (r & c & σ & Hr & Hc & Hstore & Hdo)%exchange_Some.
  exists r, c, σ. do 3 (split; [done|]).
  unfold trace.Execute. rewrite (attach_trace_ok w r Hr).
  unfold store_left, answer in *. simpl in *.
  rewrite Hc. unfold trace.client_Do. rewrite Hstore. simpl.
  by rewrite Hdo.
Qed.

Lemma Execute_success (requestStartTime finishTime : Duration) (w : trace.State)
    (fired : list event) (resp : Response) :
  trace.exchange w = Some (fired, inr resp) →
  ∃ r c σ, requests (trace.heap w) !! trace.request (trace.this w) = Some r ∧
    trace.client (trace.this w) = Some c ∧
    store_left c r w = Ok σ ∧
    trace.Execute requestStartTime finishTime w =
    Ok (None,
        {| trace.this :=
             trace.mkTrace (finish requestStartTime finishTime (observed w fired))
               (trace.client (trace.this w))
               (length (requests (trace.heap w)))
               (Some resp)
               (match body_err (resp_Body resp) with
                | Some err => "Error reading response body: " +:+ Error err
                | None => body_data (resp_Body resp)
                end);
           trace.heap := σ;
           trace.stderr :=
             match body_err (resp_Body resp) with
             | Some err =>
                 trace.stderr w ++
                 [("Error reading response body: " +:+ Error err) +:+ LF]
             | None => trace.stderr w
             end |}).
Proof.
  intros (r & c & σ & Hr & Hc & Hstore & Hdo)%exchange_Some.
  exists r, c, σ. do 3 (split; [done|]).
  unfold trace.Execute. rewrite (attach_trace_ok w r Hr).
  unfold store_left, answer in *. simpl in *.
  rewrite Hc. unfold trace.client_Do. rewrite Hstore. simpl.
  rewrite Hdo. unfold finish, observed.
  destruct (observed w fired) eqn:Hobs.
  by destruct (body_err (resp_Body resp)).
Qed.

(** [Execute] returns exactly when the call of the client is reached
    and returns. *)
Lemma Execute_panics (requestStartTime finishTime : Duration) (w : trace.State) :
  trace.exchange w = None →
  ∃ p, trace.Execute requestStartTime finishTime w = Panic p.
Proof.
  unfold trace.exchange, trace.Execute.
  destruct (trace.attach_trace w) as [w1|p]; cbn [mbind result_bind];
    [|by eexists].
  destruct (trace.client_Do _ _ _) as [[c σ]|p]; cbn [mbind result_bind];
    [done|by eexists].
Qed.

(** Observers that fire for a pooled connection leave the four set-up
    durations as they are. *)
Lemma pooled_events_keep_setup (fired : list event) :
  ∀ tm : trace.Timings,
    forallb pooled_event fired = true →
    let tm' := foldl trace.observe tm fired in
    trace.TotalConnectionDuration tm' = trace.TotalConnectionDuration tm ∧
    trace.DNSDuration tm' = trace.DNSDuration tm ∧
    trace.ConnectionDialDuration tm' = trace.ConnectionDialDuration tm ∧
    trace.TLSDuration tm' = trace.TLSDuration tm.
Proof.
  induction fired as [|e fired IH]; intros tm Hall; [done|].
  simpl in Hall. apply andb_true_iff in Hall as [He Hall].
  simpl. destruct (IH (trace.observe tm e) Hall) as (-> & -> & -> & ->).
  destruct tm; destruct e as [?|[] ? ?|? ?| | | | | | |? ?]; try discriminate He; done.
Qed.

Lemma finish_keeps_setup (requestStartTime finishTime : Duration)
    (tm : trace.Timings) :
  let tm' := finish requestStartTime finishTime tm in
  trace.TotalConnectionDuration tm' = trace.TotalConnectionDuration tm ∧
  trace.DNSDuration tm' = trace.DNSDuration tm ∧
  trace.ConnectionDialDuration tm' = trace.ConnectionDialDuration tm ∧
  trace.TLSDuration tm' = trace.TLSDuration tm.
Proof. by destruct tm. Qed.

(** C4.  When the client returns a response and reading its body fails
    with [err], [Execute] returns no error; the body it stores is the
    text ["Error reading response body: "] followed by the message of
    [err]; that text and a line feed are appended to the standard error
    stream; the response is stored and the timing record is finished
    from the observers that fired, as after any exchange in which the
    client returned a response. *)
Theorem Execute_body_read_error_not_fatal (requestStartTime finishTime : Duration)
    (w : trace.State) (fired : list event) (resp : Response) (err : error) :
  trace.exchange w = Some (fired, inr resp) →
  body_err (resp_Body resp) = Some err →
  ∃ w', trace.Execute requestStartTime finishTime w = Ok (None, w') ∧
    trace.GetResponseBody w' = ("Error reading response body: " +:+ Error err, w') ∧
    trace.stderr w' =
      trace.stderr w ++ [("Error reading response body: " +:+ Error err) +:+ LF] ∧
    trace.GetResponse w' = (Some resp, w') ∧
    trace.GetTimings w' =
      (finish requestStartTime finishTime (observed w fired), w').
Proof.
  intros Hex Herr.
  destruct (Execute_success requestStartTime finishTime w fired resp Hex)
    as (r & cl & σl & _ & _ & _ & ->).
  rewrite Herr. eexists. split; [reflexivity|]. done.
Qed.

(** C5.  What [Execute] returns follows what the client returns.  On an
    error of the client, [Execute] returns an error that wraps it, with
    the message prefixed by ["error sending request: "], and assigns
    neither the response nor the body, so that a tracer made by [New]
    still has no response.  On a response, whatever its status code,
    [Execute] returns no error and stores the response. *)
Theorem Execute_follows_client_result (requestStartTime finishTime : Duration)
    (w : trace.State) (fired : list event) (res : error + Response) :
  trace.exchange w = Some (fired, res) →
  ∃ e w', trace.Execute requestStartTime finishTime w = Ok (e, w') ∧
    match res with
    | inl err =>
        (∃ wrapped, e = Some wrapped ∧ Unwrap wrapped = Some err ∧
           Error wrapped = "error sending request: " +:+ Error err) ∧
        trace.response (trace.this w') = trace.response (trace.this w) ∧
        trace.responseBody (trace.this w') = trace.responseBody (trace.this w) ∧
        (∀ c q, trace.this w = trace.New c q → trace.GetResponse w' = (None, w'))
    | inr resp =>
        e = None ∧ trace.GetResponse w' = (Some resp, w')
    end.
Proof.
  intros Hex. destruct res as [err|resp].
  - destruct (Execute_error requestStartTime finishTime w fired err Hex)
      as (r & cl & σl & _ & _ & _ & ->).
    do 2 eexists. split; [reflexivity|]. simpl.
    split; [by eexists|]. do 2 (split; [done|]).
    intros c q Hnew. unfold trace.GetResponse. simpl. by rewrite Hnew.
  - destruct (Execute_success requestStartTime finishTime w fired resp Hex)
      as (r & cl & σl & _ & _ & _ & ->).
    do 2 eexists. split; [reflexivity|]. done.
Qed.

(** C2 (amended).  On a tracer made by [New], whatever its client will
    do: before [Execute] the three accessors return nil, the empty
    string and the zero timing record.  [Execute] returns an error
    exactly when the client does, and after an [Execute] that returned
    an error [GetResponse] and [GetResponseBody] still return nil and
    the empty string, while [GetTimings] returns the record as the
    observers that fired before the failure have written it.  No
    accessor changes the state. *)
Theorem accessors_before_success (requestStartTime finishTime : Duration)
    (w : trace.State) (c : option Client) (q : nat) :
  trace.this w = trace.New c q →
  (trace.GetResponse w = (None, w) ∧
   trace.GetResponseBody w = ("", w) ∧
   trace.GetTimings w = (trace.Timings_zero, w)) ∧
  (∀ fired err,
     trace.exchange w = Some (fired, inl err) →
     ∃ e w', trace.Execute requestStartTime finishTime w = Ok (Some e, w') ∧
       trace.GetResponse w' = (None, w') ∧
       trace.GetResponseBody w' = ("", w') ∧
       trace.GetTimings w' = (foldl trace.observe trace.Timings_zero fired, w')) ∧
  (∀ e w',
     trace.Execute requestStartTime finishTime w = Ok (Some e, w') →
     trace.GetResponse w' = (None, w') ∧
     trace.GetResponseBody w' = ("", w') ∧
     ∃ fired err,
       trace.exchange w = Some (fired, inl err) ∧
       trace.GetTimings w' = (foldl trace.observe trace.Timings_zero fired, w')) ∧
  (∀ v, (trace.GetResponse v).2 = v ∧ (trace.GetResponseBody v).2 = v ∧
        (trace.GetTimings v).2 = v).
Proof.
  intros Hnew. split; [|split; [|split]].
  - unfold trace.GetResponse, trace.GetResponseBody, trace.GetTimings.
    by rewrite Hnew.
  - intros fired err Hex.
    destruct (Execute_error requestStartTime finishTime w fired err Hex)
      as (r & cl & σl & _ & _ & _ & ->).
    do 2 eexists. split; [reflexivity|].
    unfold trace.GetResponse, trace.GetResponseBody, trace.GetTimings, observed.
    simpl. by rewrite Hnew.
  - intros e w' Hexec.
    destruct (trace.exchange w) as [[fired [err|resp]]|] eqn:Hex.
    + destruct (Execute_error requestStartTime finishTime w fired err Hex)
        as (r & cl & σl & _ & _ & _ & Hrun).
      rewrite Hrun in Hexec. injection Hexec as _ <-.
      unfold trace.GetResponse, trace.GetResponseBody, trace.GetTimings, observed.
      simpl. rewrite Hnew. do 2 (split; [done|]). by exists fired, err.
    + destruct (Execute_success requestStartTime finishTime w fired resp Hex)
        as (r & cl & σl & _ & _ & _ & Hrun).
      rewrite Hrun in Hexec. discriminate Hexec.
    + destruct (Execute_panics requestStartTime finishTime w Hex) as [p Hrun].
      rewrite Hrun in Hexec. discriminate Hexec.
  - done.
Qed.

(** C6.  On a tracer made by [New], when only the observers of a pooled
    connection fire ([GetConn], [GotConn] reporting a reused connection,
    [WroteRequest], [GotFirstResponseByte]) the total connection set-up
    duration and the DNS, dial and TLS durations are all zero after
    [Execute], whatever the client returns. *)
Theorem reused_connection_no_setup_time (requestStartTime finishTime : Duration)
    (w : trace.State) (c : option Client) (q : nat) (fired : list event)
    (res : error + Response) :
  trace.this w = trace.New c q →
  trace.exchange w = Some (fired, res) →
  forallb pooled_event fired = true →
  ∃ e w', trace.Execute requestStartTime finishTime w = Ok (e, w') ∧
    trace.TotalConnectionDuration (trace.GetTimings w').1 = 0 ∧
    trace.DNSDuration (trace.GetTimings w').1 = 0 ∧
    trace.ConnectionDialDuration (trace.GetTimings w').1 = 0 ∧
    trace.TLSDuration (trace.GetTimings w').1 = 0.
Proof.
  intros Hnew Hex Hpooled.
  pose proof (pooled_events_keep_setup fired trace.Timings_zero Hpooled) as Hkeep.
  simpl in Hkeep. destruct res as [err|resp].
  - destruct (Execute_error requestStartTime finishTime w fired err Hex)
      as (r & cl & σl & _ & _ & _ & ->).
    do 2 eexists. split; [reflexivity|]. simpl. unfold observed.
    by rewrite Hnew.
  - destruct (Execute_success requestStartTime finishTime w fired resp Hex)
      as (r & cl & σl & _ & _ & _ & ->).
    do 2 eexists. split; [reflexivity|]. simpl. unfold observed.
    rewrite Hnew. simpl.
    destruct (finish_keeps_setup requestStartTime finishTime
                (foldl trace.observe trace.Timings_zero fired))
      as (-> & -> & -> & ->).
    done.
Qed.

(** *** The store the client leaves *)

Lemma add_cookies_frame (cookies : list string) (σ σ' : Heap) (r : Request) :
  add_cookies cookies σ r = Ok σ' →
  requests σ' = requests σ ∧ bodies σ' = bodies σ ∧
  ∀ hp, hp ≠ req_Header r → headers σ' !! hp = headers σ !! hp.
Proof.
  unfold add_cookies. destruct cookies as [|s cookies]; [by intros [= <-]|].
  destruct (headers σ !! req_Header r) as [h|]; [|done].
  intros [= <-]. simpl. do 2 (split; [done|]).
  intros hp Hne. by rewrite list_lookup_insert_ne.
Qed.

Lemma read_body_frame (n : nat) (σ : Heap) (r : Request) :
  requests (read_body n σ r) = requests σ ∧
  headers (read_body n σ r) = headers σ ∧
  (∀ bp, bp ≠ req_Body r → bodies (read_body n σ r) !! bp = bodies σ !! bp) ∧
  (bodies σ !! req_Body r = None → bodies (read_body n σ r) = bodies σ) ∧
  (∀ b, bodies σ !! req_Body r = Some b →
        bodies (read_body n σ r) !! req_Body r
        = Some {| unread := skip n (unread b); closed := true |}).
Proof.
  unfold read_body. destruct (bodies σ !! req_Body r) as [b|] eqn:Hb; simpl.
  - do 2 (split; [done|]). split.
    { intros bp Hne. by rewrite list_lookup_insert_ne. }
    split; [done|]. intros b' [= <-].
    apply list_lookup_insert_eq. by eapply lookup_lt_Some.
  - by rewrite Hb.
Qed.

(** Whatever the client, the store it leaves has the request objects it
    found; of the header maps it may have written the one of the request
    it was handed, and only with a cookie jar; of the body readers the
    one of that request, which is closed afterwards. *)
Lemma Do_store_frame (c : Client) (σ σ' : Heap) (p : nat) (r : Request) :
  requests σ !! p = Some r →
  Do_store c σ p = Ok σ' →
  requests σ' = requests σ ∧
  (∀ hp, hp ≠ req_Header r → headers σ' !! hp = headers σ !! hp) ∧
  (Jar c = None → headers σ' = headers σ) ∧
  (∀ bp, bp ≠ req_Body r → bodies σ' !! bp = bodies σ !! bp) ∧
  (bodies σ !! req_Body r = None → bodies σ' = bodies σ) ∧
  (∀ b, bodies σ !! req_Body r = Some b →
        ∃ n, bodies σ' !! req_Body r
             = Some {| unread := skip n (unread b); closed := true |}).
Proof.
  intros Hr. unfold Do_store, deref. rewrite Hr. cbn [mbind result_bind].
  destruct (req_URL r) as [u|].
  - destruct (match Jar c with
              | Some jar => add_cookies (jar σ p) σ r
              | None => Ok σ
              end) as [σ1|] eqn:Hjar; cbn [mbind result_bind]; [|done].
    intros [= <-].
    destruct (read_body_frame (Reads c σ p) σ1 r)
      as (Hrq & Hhd & Hother & Hnil & Hread).
    assert (Hσ1 : requests σ1 = requests σ ∧ bodies σ1 = bodies σ ∧
                  (∀ hp, hp ≠ req_Header r → headers σ1 !! hp = headers σ !! hp) ∧
                  (Jar c = None → σ1 = σ)).
    { destruct (Jar c) as [jar|].
      - destruct (add_cookies_frame _ _ _ _ Hjar) as (? & ? & ?). done.
      - injection Hjar as <-. done. }
    destruct Hσ1 as (Hrq1 & Hbd1 & Hother1 & Hsame).
    rewrite Hrq, Hhd. split; [done|]. split; [done|].
    split; [by intros ->%Hsame|].
    split; [by intros bp Hne; rewrite Hother, Hbd1|].
    split; [by intros Hnone; rewrite Hnil, Hbd1; rewrite ?Hbd1|].
    intros b Hb. exists (Reads c σ p). apply Hread. by rewrite Hbd1.
  - intros [= <-].
    destruct (read_body_frame 0 σ r) as (Hrq & Hhd & Hother & Hnil & Hread).
    rewrite Hrq, Hhd. do 4 (split; [done|]). split; [done|].
    intros b Hb. exists 0%nat. by apply Hread.
Qed.

(** The call of the client returns when the request has a header map or
    the client has no cookie jar. *)
Lemma Do_store_ok (c : Client) (σ : Heap) (p : nat) (r : Request) :
  requests σ !! p = Some r →
  is_Some (headers σ !! req_Header r) ∨ Jar c = None →
  ∃ σ', Do_store c σ p = Ok σ'.
Proof.
  intros Hr Hsafe. unfold Do_store, deref. rewrite Hr. cbn [mbind result_bind].
  destruct (req_URL r) as [u|]; [|by eexists].
  destruct (Jar c) as [jar|]; [|by eexists].
  destruct Hsafe as [[h Hh]|?]; [|done].
  unfold add_cookies. rewrite Hh. destruct (jar σ p); by eexists.
Qed.

Lemma attached_sent (w : trace.State) (r : Request) :
  requests (trace.heap (attached r w)) !! length (requests (trace.heap w))
  = Some (derived_request r).
Proof. simpl. by rewrite lookup_app_r, Nat.sub_diag. Qed.

(** What [Execute] returns and leaves, from the answer of the client to
    the derived request. *)
Lemma Execute_answer (requestStartTime finishTime : Duration) (w : trace.State)
    (r : Request) (c : Client) (σ : Heap) :
  requests (trace.heap w) !! trace.request (trace.this w) = Some r →
  trace.client (trace.this w) = Some c →
  store_left c r w = Ok σ →
  ∃ e w', trace.Execute requestStartTime finishTime w = Ok (e, w') ∧
    e = error_of (answer c r w).2 ∧
    trace.response (trace.this w') =
      response_of (trace.response (trace.this w)) (answer c r w).2 ∧
    trace.timings (trace.this w') =
      record_of requestStartTime finishTime (trace.timings (trace.this w))
        (answer c r w) ∧
    trace.request (trace.this w') = length (requests (trace.heap w)) ∧
    trace.client (trace.this w') = trace.client (trace.this w) ∧
    trace.heap w' = σ.
Proof.
  intros Hr Hc Hstore.
  pose proof (exchange_answer w r c σ Hr Hc Hstore) as Hex.
  unfold record_of.
  destruct (answer c r w) as [fired [err|resp]] eqn:Hanswer.
  - destruct (Execute_error requestStartTime finishTime w fired err Hex)
      as (r' & c' & σ' & Hr' & Hc' & Hstore' & ->).
    assert (r' = r) as -> by congruence.
    assert (c' = c) as -> by congruence.
    assert (σ' = σ) as -> by congruence.
    by do 2 eexists.
  - destruct (Execute_success requestStartTime finishTime w fired resp Hex)
      as (r' & c' & σ' & Hr' & Hc' & Hstore' & ->).
    assert (r' = r) as -> by congruence.
    assert (c' = c) as -> by congruence.
    assert (σ' = σ) as -> by congruence.
    by do 2 eexists.
Qed.

(** C10 (amended).  [Execute] itself writes no object of the store.  It
    allocates a copy of the tracer's request that has the same method,
    URL, protocol, header map and body reader and differs in its context
    only, which is the old one with the trace observers attached.  It
    calls the client of the tracer on that copy, in the store that the
    copy has been added to; when the call returns, what [Execute]
    returns, the response it stores and the timing record it leaves
    follow from the client's answer to that copy, the store is the one
    the client leaves, and the tracer points to the copy.  The request
    object the caller holds is after the call what it was before.  The
    header map and the body reader are shared with the copy, not copied:
    after the call the header map is as the client leaves it, unchanged
    when the client has no cookie jar; the body reader, when the request
    has one, is closed and holds what the client has left unread.  Every
    other header map and body reader is unchanged whatever the client. *)
Theorem Execute_sends_derived_copy (requestStartTime finishTime : Duration)
    (w : trace.State) (r : Request) (c : Client) (σ : Heap) :
  requests (trace.heap w) !! trace.request (trace.this w) = Some r →
  trace.client (trace.this w) = Some c →
  Do_store c (trace.heap (attached r w)) (length (requests (trace.heap w))) = Ok σ →
  ∃ e w' sent,
    trace.Execute requestStartTime finishTime w = Ok (e, w') ∧
    trace.heap (attached r w) =
      {| requests := requests (trace.heap w) ++ [sent];
         headers := headers (trace.heap w);
         bodies := bodies (trace.heap w) |} ∧
    (req_Method sent = req_Method r ∧
     req_URL sent = req_URL r ∧
     req_Proto sent = req_Proto r ∧
     req_Header sent = req_Header r ∧
     req_Body sent = req_Body r ∧
     req_ctx sent = WithClientTrace (req_ctx r)) ∧
    (trace.exchange w =
       Some (Do c (trace.heap (attached r w)) (length (requests (trace.heap w)))) ∧
     e = error_of
           (Do c (trace.heap (attached r w)) (length (requests (trace.heap w)))).2 ∧
     trace.response (trace.this w') =
       response_of (trace.response (trace.this w))
         (Do c (trace.heap (attached r w)) (length (requests (trace.heap w)))).2 ∧
     trace.timings (trace.this w') =
       record_of requestStartTime finishTime (trace.timings (trace.this w))
         (Do c (trace.heap (attached r w)) (length (requests (trace.heap w))))) ∧
    (trace.heap w' = σ ∧
     trace.request (trace.this w') = length (requests (trace.heap w)) ∧
     requests (trace.heap w') = requests (trace.heap w) ++ [sent]) ∧
    (∀ p r0, requests (trace.heap w) !! p = Some r0 →
             requests (trace.heap w') !! p = Some r0) ∧
    ((∀ hp, hp ≠ req_Header r →
            headers (trace.heap w') !! hp = headers (trace.heap w) !! hp) ∧
     (Jar c = None → headers (trace.heap w') = headers (trace.heap w))) ∧
    ((∀ bp, bp ≠ req_Body r →
            bodies (trace.heap w') !! bp = bodies (trace.heap w) !! bp) ∧
     (bodies (trace.heap w) !! req_Body r = None →
      bodies (trace.heap w') = bodies (trace.heap w)) ∧
     (∀ b, bodies (trace.heap w) !! req_Body r = Some b →
           ∃ n, bodies (trace.heap w') !! req_Body r
                = Some {| unread := skip n (unread b); closed := true |})).
Proof.
  intros Hr Hc Hstore.
  destruct (Execute_answer requestStartTime finishTime w r c σ Hr Hc Hstore)
    as (e & w' & Hexec & He & Hresp & Htm & Hreq & _ & Hheap).
  destruct (Do_store_frame c _ σ _ (derived_request r) (attached_sent w r) Hstore)
    as (Hrq & Hother & Hjar & Hbother & Hbnil & Hbread).
  exists e, w', (derived_request r).
  split; [done|]. split; [done|]. split; [done|].
  split; [by split; [eapply exchange_answer|]|].
  rewrite Hheap, Hrq. split; [done|]. split.
  { intros p r0 Hp. simpl. by apply lookup_app_l_Some. }
  done.
Qed.

(** ** One round trip *)





(** ** The report *)

Lemma string_app_assoc (a b c : string) : (a +:+ b) +:+ c = a +:+ b +:+ c.
Proof.
  induction a as [|x a IH]; [done|].
  change (String x ((a +:+ b) +:+ c) = String x (a +:+ b +:+ c)).
  by rewrite IH.
Qed.

Lemma occurs_in_app_l (t s a : string) : occurs_in t s → occurs_in t (a +:+ s).
Proof.
  intros (pre & post & ->). exists (a +:+ pre), post.
  by rewrite !string_app_assoc.
Qed.

Lemma occurs_in_app_r (t s b : string) : occurs_in t s → occurs_in t (s +:+ b).
Proof.
  intros (pre & post & ->). exists pre, (post +:+ b).
  by rewrite !string_app_assoc.
Qed.

Lemma occurs_in_prefix (t b : string) : occurs_in t (t +:+ b).
Proof. by exists "", b. Qed.

Section Report.
Context {platform : Platform}.

(** The keys are visited in the same order whatever the enumeration. *)
Lemma sorted_keys_unique (run1 run2 : MapIteration) (m : Header) :
  merge_sort String.le (@MapKeys run1 m) = merge_sort String.le (@MapKeys run2 m).
Proof.
  apply (Sorted_unique String.le).
  - apply Sorted_merge_sort, _.
  - apply Sorted_merge_sort, _.
  - rewrite !merge_sort_Permutation. by rewrite !MapKeys_keys.
Qed.

Lemma range_header_unique (run1 run2 : MapIteration) (prefix : string) (m : Header) :
  report.range_header (run := run1) prefix m = report.range_header (run := run2) prefix m.
Proof.
  unfold report.range_header. by rewrite (sorted_keys_unique run1 run2).
Qed.

(** Every entry of a map has its line in what the range produces. *)
Lemma range_header_line {run : MapIteration} (prefix key : string) (m : Header)
    (value : list string) :
  m !! key = Some value →
  occurs_in (LF +:+ prefix +:+ key +:+ ": " +:+ Join value "")
            (report.range_header prefix m).
Proof.
  intros Hkey. unfold report.range_header.
  assert (Hin : key ∈ merge_sort String.le (MapKeys m)).
  { rewrite merge_sort_Permutation, MapKeys_keys.
    apply elem_of_elements, elem_of_dom. by eexists. }
  induction (merge_sort String.le (MapKeys m)) as [|k ks IH];
    [by apply elem_of_nil in Hin|].
  apply elem_of_cons in Hin as [<-|Hin].
  - exists "", (foldr (λ key out,
                  LF +:+ prefix +:+ key +:+ ": " +:+
                  report.stringsJoin (m !!! key) "" +:+ out) "" ks).
    simpl. unfold report.stringsJoin.
    rewrite (lookup_total_correct m key value Hkey).
    by rewrite !string_app_assoc.
  - destruct (IH Hin) as (pre & post & Heq).
    exists ((LF +:+ prefix +:+ k +:+ ": " +:+
             report.stringsJoin (m !!! k) "") +:+ pre), post.
    simpl. rewrite Heq. by rewrite !string_app_assoc.
Qed.

End Report.

Section Layout.
Context {platform : Platform} {run : MapIteration}.

(** C8 (amended).  When the request, its URL, the response, the timing
    record and the presentation are all there, [Build] succeeds.  With
    both flags false the output is the request block (the request line,
    one line per request header and the closing [>]), the status line,
    one line per response header, the body and the trace section: every
    header of the response has its line in the output and the body is in
    it.  With both flags true the output is the request block, the
    status line and the trace section and nothing else; the lines of the
    request headers are part of it in both cases. *)
Theorem Build_layout (σ : Heap) (r : report.Report) (req : Request) (u : URL)
    (res : Response) (tm : trace.Timings) (both : bool) :
  requests σ !! report.Request (report.data r) = Some req →
  req_URL req = Some u →
  report.Response (report.data r) = Some res →
  report.Timings (report.data r) = Some tm →
  report.Presentation' (report.data r) =
    Some {| report.SuppressHeaders := both; report.SuppressBody := both |} →
  ∃ r', report.Build σ r = (None, r') ∧
    report.request_block σ req u =
      report.request_line req u +:+
      report.range_header "> " (default ∅ (headers σ !! req_Header req)) +:+
      LF +:+ ">" ∧
    if both
    then report.output r' =
           report.request_block σ req u +:+ report.status_line res +:+
           report.trace_section tm
    else report.output r' =
           report.request_block σ req u +:+ report.status_line res +:+
           report.range_header "< " (resp_Header res) +:+
           LF +:+ report.ResponseBody (report.data r) +:+
           report.trace_section tm ∧
         (∀ key value, resp_Header res !! key = Some value →
            occurs_in (LF +:+ "< " +:+ key +:+ ": " +:+ Join value "")
                      (report.output r')) ∧
         occurs_in (report.ResponseBody (report.data r)) (report.output r').
Proof.
  intros Hreq Hu Hres Htm Hpres.
  unfold report.Build, report.execute_outputTmpl.
  rewrite Hreq, Hu, Hres, Hpres, Htm. simpl.
  eexists. split; [reflexivity|]. split; [done|].
  destruct both; simpl; [done|].
  split; [by rewrite !string_app_assoc|]. split.
  - intros key value Hkey.
    do 2 apply occurs_in_app_l. apply occurs_in_app_r.
    by apply range_header_line.
  - do 3 apply occurs_in_app_l.
    rewrite string_app_assoc. apply occurs_in_app_l, occurs_in_prefix.
Qed.

End Layout.

(** C9.  [Build] does not depend on the order in which the run time
    enumerates the header maps: two runs on the same store and the same
    report, each with its own enumeration of the maps, return the same
    error and leave the same output. *)
Theorem Build_deterministic {platform : Platform} (run1 run2 : MapIteration)
    (σ : Heap) (r : report.Report) :
  report.Build (run := run1) σ r = report.Build (run := run2) σ r.
Proof.
  unfold report.Build, report.execute_outputTmpl, report.request_block.
  destruct (requests σ !! report.Request (report.data r)) as [req|]; [|done].
  destruct (req_URL req) as [u|]; [|done].
  destruct (report.Response (report.data r)) as [res|]; [|done].
  destruct (report.Presentation' (report.data r)) as [pres|]; [|done].
  destruct (report.Timings (report.data r)) as [tm|]; [|done].
  rewrite (range_header_unique run1 run2 "> ").
  by rewrite (range_header_unique run1 run2 "< ").
Qed.

(** ** The ASCII instance of [strings.TrimSpace] *)

Lemma trim_left_spec (s : string) :
  ∃ l, s = l +:+ ascii.trim_left s ∧ ascii.all_space l = true ∧
       ascii.starts_with_space (ascii.trim_left s) = false.
Proof.
  induction s as [|c s (l & Heq & Hl & Hstart)]; [by exists ""|].
  simpl. destruct (Ascii.is_space c) eqn:Hc.
  - exists (String c l). split; [|split; [|done]].
    + change (String c s = String c (l +:+ ascii.trim_left s)). by f_equal.
    + simpl. by rewrite Hc.
  - exists "". by rewrite <- Hc.
Qed.

Lemma trim_right_spec (s : string) :
  ∃ r, s = ascii.trim_right s +:+ r ∧ ascii.all_space r = true ∧
       ascii.ends_with_space (ascii.trim_right s) = false ∧
       ascii.starts_with_space (ascii.trim_right s) =
         ascii.starts_with_space s && negb (ascii.all_space s).
Proof.
  induction s as [|c s (r & Heq & Hr & Hend & _)]; [by exists ""|].
  simpl. destruct (ascii.trim_right s) as [|c' t] eqn:Ht.
  - change (s = r) in Heq. subst r. rewrite Hr.
    destruct (Ascii.is_space c) eqn:Hc.
    + exists (String c s). simpl. by rewrite Hc, Hr.
    + exists s. simpl. by rewrite Hc.
  - exists r. split; [|split; [done|split; [done|]]].
    + change (String c s = String c (String c' t +:+ r)). by f_equal.
    + simpl. destruct (Ascii.is_space c); [|done]. simpl.
      destruct (ascii.all_space s) eqn:Hs; [|done]. exfalso.
      clear - Ht Hs. revert c' t Ht.
      induction s as [|d s IH]; intros c' t Ht; [done|].
      simpl in Hs. apply andb_true_iff in Hs as [Hd Hs]. simpl in Ht.
      destruct (ascii.trim_right s) as [|c'' t'] eqn:Ht'.
      * by rewrite Hd in Ht.
      * by eapply IH.
Qed.

(** The instance removes the white space around a text and nothing
    else. *)
Lemma ascii_TrimSpace_trims (s : string) :
  ∃ l r, s = l +:+ ascii.TrimSpace s +:+ r ∧
    ascii.all_space l = true ∧ ascii.all_space r = true ∧
    ascii.starts_with_space (ascii.TrimSpace s) = false ∧
    ascii.ends_with_space (ascii.TrimSpace s) = false.
Proof.
  destruct (trim_left_spec s) as (l & Hl & Hls & Hstart).
  destruct (trim_right_spec (ascii.trim_left s)) as (r & Hr & Hrs & Hend & Hkeep).
  exists l, r. unfold ascii.TrimSpace.
  split; [by rewrite <- Hr|]. do 2 (split; [done|]).
  split; [|done]. by rewrite Hkeep, Hstart.
Qed.

(** * The model on concrete inputs *)

#[local] Existing Instance ascii.platform.
#[local] Existing Instance iteration_forward.

(** The four cases of [TestReport]. *)
Example TestReport_full :
  report.Build example.test_store (example.test_report false false) =
  (None,
   {| report.data := report.data (example.test_report false false);
      report.output :=
        example.expectedRequestHeadersOutput +:+
        example.expectedResponseStatusOutput +:+
        example.expectedResponseHeadersOutput +:+
        example.test_body +:+ LF +:+ LF +:+ example.expectedTraceOutput |}).
Proof. vm_compute. reflexivity. Qed.

Example TestReport_headers_suppressed :
  report.output (report.Build example.test_store (example.test_report true false)).2 =
  example.expectedRequestHeadersOutput +:+ example.expectedResponseStatusOutput +:+
  example.test_body +:+ LF +:+ LF +:+ example.expectedTraceOutput.
Proof. vm_compute. reflexivity. Qed.

Example TestReport_body_suppressed :
  report.output (report.Build example.test_store (example.test_report false true)).2 =
  example.expectedRequestHeadersOutput +:+ example.expectedResponseStatusOutput +:+
  example.expectedResponseHeadersOutput +:+ LF +:+ example.expectedTraceOutput.
Proof. vm_compute. reflexivity. Qed.

Example TestReport_both_suppressed :
  report.output (report.Build example.test_store (example.test_report true true)).2 =
  example.expectedRequestHeadersOutput +:+ example.expectedResponseStatusOutput +:+
  LF +:+ example.expectedTraceOutput.
Proof. vm_compute. reflexivity. Qed.

(** The same report with the maps enumerated backwards. *)
Example TestReport_backward :
  report.Build (run := iteration_backward) example.test_store
    (example.test_report false false) =
  report.Build (run := iteration_forward) example.test_store
    (example.test_report false false) ∧
  MapKeys (MapIteration := iteration_backward) (resp_Header example.test_response) ≠
  MapKeys (MapIteration := iteration_forward) (resp_Header example.test_response).
Proof. split; [vm_compute; reflexivity | vm_compute; discriminate]. Qed.

(** A second line for a name replaces the value of the first one, also
    when the two lines spell the name differently. *)
Example SetHeaders_twice :
  trace.SetHeaders ["X-Hello: hi"; " x-hello :  ho:hum "; "Accept:*/*"]
    (example.created example.pooled) =
  Ok (with_header_map 0
        (<["Accept" := ["*/*"]]> {["X-Hello" := ["ho:hum"]]})
        (example.created example.pooled)).
Proof. vm_compute. reflexivity. Qed.

(** ** Instances of the theorems *)

Lemma SetHeaders_out_of_range_iff_no_colon_witness :
  request_ready (example.created example.pooled) ∧
  trace.SetHeaders ["X-Hello: hi"; "no separator"] (example.created example.pooled)
    = Panic IndexOutOfRange ∧
  ∃ w', trace.SetHeaders ["X-Hello: hi"] (example.created example.pooled) = Ok w'.
Proof.
  assert (Hready : request_ready (example.created example.pooled)).
  { exists example.request0, ∅. split; reflexivity. }
  split; [exact Hready|]. split.
  - destruct (SetHeaders_out_of_range_iff_no_colon
                ["X-Hello: hi"; "no separator"] _ Hready) as [_ [_ Hpanic]].
    apply Hpanic. apply Exists_cons_tl, Exists_cons_hd. reflexivity.
  - destruct (SetHeaders_out_of_range_iff_no_colon
                ["X-Hello: hi"] _ Hready) as [Hok _].
    apply Hok. repeat constructor.
Defined.

Lemma SetHeaders_sets_trimmed_headers_witness :
  Forall (λ full, has_colon full = true) ["X-Hello: hi"] ∧
  trace.SetHeaders ["X-Hello: hi"] (example.created example.pooled) =
    Ok (with_header_map 0 {["X-Hello" := ["hi"]]} (example.created example.pooled)) ∧
  ({["X-Hello" := ["hi"]]} : Header) !! "X-Hello" = Some ["hi"] ∧
  Header_Get {["X-Hello" := ["hi"]]} "X-Hello" = "hi".
Proof.
  assert (Hall : Forall (λ full, has_colon full = true) ["X-Hello: hi"])
    by (repeat constructor).
  split; [exact Hall|].
  destruct (SetHeaders_sets_trimmed_headers ["X-Hello: hi"]
              (example.created example.pooled) example.request0 ∅
              eq_refl eq_refl Hall) as (Hok & _ & Hlast).
  split; [exact Hok|].
  exact (Hlast [] "X-Hello: hi" [] eq_refl (List.Forall_nil _)).
Defined.

Lemma Execute_body_read_error_not_fatal_witness :
  trace.exchange (example.created example.cut_short) =
    Some (schedule example.pooled_round_trip, inr example.broken_body) ∧
  body_err (resp_Body example.broken_body) = Some (errorString "unexpected EOF") ∧
  ∃ w', trace.Execute 100 100120000 (example.created example.cut_short)
          = Ok (None, w') ∧
    trace.GetResponseBody w' = ("Error reading response body: unexpected EOF", w') ∧
    trace.stderr w' = ["Error reading response body: unexpected EOF" +:+ LF] ∧
    trace.GetResponse w' = (Some example.broken_body, w') ∧
    trace.GetTimings w' =
      (finish 100 100120000
         (observed (example.created example.cut_short)
                   (schedule example.pooled_round_trip)), w').
Proof.
  split; [reflexivity|]. split; [reflexivity|].
  exact (Execute_body_read_error_not_fatal 100 100120000
           (example.created example.cut_short)
           (schedule example.pooled_round_trip) example.broken_body
           (errorString "unexpected EOF") eq_refl eq_refl).
Defined.

Lemma Execute_follows_client_result_witness :
  (trace.exchange (example.created example.timed_out) =
     Some ([GetConn 1000; ConnectStart 2000; ConnectDone 300000;
            GotConn false 301000 301100; WroteRequest 350000 350100],
           inl example.timeout_error) ∧
   ∃ e w', trace.Execute 100 0 (example.created example.timed_out) = Ok (e, w') ∧
     (∃ wrapped, e = Some wrapped ∧ Unwrap wrapped = Some example.timeout_error ∧
        Error wrapped = "error sending request: " +:+ Error example.timeout_error) ∧
     trace.response (trace.this w') = None ∧
     trace.responseBody (trace.this w') = "" ∧
     (∀ c q, trace.this (example.created example.timed_out) = trace.New c q →
             trace.GetResponse w' = (None, w'))) ∧
  (trace.exchange (example.created example.answered_404) =
     Some (schedule example.tls_round_trip, inr example.not_found) ∧
   StatusCode example.not_found = 404 ∧
   ∃ e w', trace.Execute 100 805970000 (example.created example.answered_404)
             = Ok (e, w') ∧
     e = None ∧ trace.GetResponse w' = (Some example.not_found, w')).
Proof.
  split.
  - split; [reflexivity|].
    exact (Execute_follows_client_result 100 0 (example.created example.timed_out)
             _ (inl example.timeout_error) eq_refl).
  - split; [reflexivity|]. split; [reflexivity|].
    exact (Execute_follows_client_result 100 805970000
             (example.created example.answered_404)
             _ (inr example.not_found) eq_refl).
Defined.

Lemma accessors_before_success_witness :
  (trace.this (example.created example.pooled) = trace.New (Some example.pooled) 0 ∧
   trace.GetResponse (example.created example.pooled)
     = (None, example.created example.pooled) ∧
   trace.GetResponseBody (example.created example.pooled)
     = ("", example.created example.pooled) ∧
   trace.GetTimings (example.created example.pooled)
     = (trace.Timings_zero, example.created example.pooled)) ∧
  (trace.this (example.created example.timed_out) = trace.New (Some example.timed_out) 0 ∧
   trace.exchange (example.created example.timed_out) =
     Some ([GetConn 1000; ConnectStart 2000; ConnectDone 300000;
            GotConn false 301000 301100; WroteRequest 350000 350100],
           inl example.timeout_error) ∧
   ∃ e w', trace.Execute 100 0 (example.created example.timed_out) = Ok (Some e, w') ∧
     trace.GetResponse w' = (None, w') ∧
     trace.GetResponseBody w' = ("", w') ∧
     trace.GetTimings w' =
       (trace.mkTimings 1000 2000 0 0 301100 350100 0 0 298000 0 300000 48900 0 0 0,
        w')).
Proof.
  split.
  - split; [reflexivity|].
    destruct (accessors_before_success 100 100120000
                (example.created example.pooled) (Some example.pooled) 0 eq_refl)
      as (Hbefore & _ & _).
    exact Hbefore.
  - split; [reflexivity|]. split; [reflexivity|].
    destruct (accessors_before_success 100 0 (example.created example.timed_out)
                (Some example.timed_out) 0 eq_refl)
      as (_ & Hfailed & _).
    exact (Hfailed _ example.timeout_error eq_refl).
Defined.

Lemma reused_connection_no_setup_time_witness :
  trace.this (example.created example.pooled) = trace.New (Some example.pooled) 0 ∧
  forallb pooled_event (schedule example.pooled_round_trip) = true ∧
  ∃ e w', trace.Execute 100 100120000 (example.created example.pooled) = Ok (e, w') ∧
    trace.TotalConnectionDuration (trace.GetTimings w').1 = 0 ∧
    trace.DNSDuration (trace.GetTimings w').1 = 0 ∧
    trace.ConnectionDialDuration (trace.GetTimings w').1 = 0 ∧
    trace.TLSDuration (trace.GetTimings w').1 = 0.
Proof.
  split; [reflexivity|]. split; [reflexivity|].
  exact (reused_connection_no_setup_time 100 100120000
           (example.created example.pooled) (Some example.pooled) 0
           (schedule example.pooled_round_trip) _ eq_refl eq_refl eq_refl).
Defined.

Lemma Execute_sends_derived_copy_witness :
  requests (trace.heap (example.posting example.timed_out)) !! 0%nat
    = Some example.request1 ∧
  trace.client (trace.this (example.posting example.timed_out))
    = Some example.timed_out ∧
  Jar example.timed_out = None ∧
  bodies (trace.heap (example.posting example.timed_out)) !! 0%nat
    = Some {| unread := "q=rocq"; closed := false |} ∧
  ∃ e w' sent,
    trace.Execute 100 0 (example.posting example.timed_out) = Ok (e, w') ∧
    (req_Method sent = "POST" ∧
     req_URL sent = req_URL example.request1 ∧
     req_Proto sent = "HTTP/1.1" ∧
     req_Header sent = 0%nat ∧
     req_Body sent = 0%nat ∧
     req_ctx sent = WithClientTrace Background) ∧
    e = Some (Errorf_w "error sending request: " example.timeout_error) ∧
    trace.response (trace.this w') = None ∧
    trace.timings (trace.this w') =
      trace.mkTimings 1000 2000 0 0 301100 350100 0 0 298000 0 300000 48900 0 0 0 ∧
    trace.request (trace.this w') = 1%nat ∧
    requests (trace.heap w') = [example.request1; sent] ∧
    headers (trace.heap w') = [∅] ∧
    ∃ n, bodies (trace.heap w') !! 0%nat
         = Some {| unread := skip n "q=rocq"; closed := true |}.
Proof.
  split; [reflexivity|]. split; [reflexivity|]. split; [reflexivity|].
  split; [reflexivity|].
  destruct (Execute_sends_derived_copy 100 0
              (example.posting example.timed_out) example.request1
              example.timed_out
              {| requests := [example.request1; derived_request example.request1];
                 headers := [∅];
                 bodies := [{| unread := ""; closed := true |}] |}
              eq_refl eq_refl eq_refl)
    as (e & w' & sent & Hexec & _ & Hfields & (_ & He & Hresp & Htm) &
        (_ & Hreq & Hat) & _ & (_ & Hjar) & (_ & _ & Hread)).
  exists e, w', sent. split; [exact Hexec|]. split; [exact Hfields|].
  split; [exact He|]. split; [exact Hresp|]. split; [exact Htm|].
  split; [exact Hreq|]. split; [exact Hat|]. split; [exact (Hjar eq_refl)|].
  exact (Hread _ eq_refl).
Defined.

(** C10, as stated, fails for a request with a body and a client with a
    cookie jar: after [Execute] the header map of the request the caller
    holds has the cookie of the jar, which it did not have before, and
    its body has been read and closed, because the copy handed to the
    client shares the map and the reader. *)
Lemma client_writes_reach_the_caller :
  trace.this (example.posting example.with_jar) = trace.New (Some example.with_jar) 0 ∧
  requests (trace.heap (example.posting example.with_jar)) !! 0%nat
    = Some example.request1 ∧
  headers (trace.heap (example.posting example.with_jar))
    !! req_Header example.request1 = Some ∅ ∧
  bodies (trace.heap (example.posting example.with_jar))
    !! req_Body example.request1 = Some {| unread := "q=rocq"; closed := false |} ∧
  ∃ w', trace.Execute 100 100120000 (example.posting example.with_jar)
          = Ok (None, w') ∧
    requests (trace.heap w') !! 0%nat = Some example.request1 ∧
    headers (trace.heap w') !! req_Header example.request1
      = Some {["Cookie" := ["session=42"]]} ∧
    bodies (trace.heap w') !! req_Body example.request1
      = Some {| unread := ""; closed := true |} ∧
    headers (trace.heap w') ≠ headers (trace.heap (example.posting example.with_jar)) ∧
    bodies (trace.heap w') ≠ bodies (trace.heap (example.posting example.with_jar)).
Proof.
  do 4 (split; [reflexivity|]).
  eexists. split; [reflexivity|]. do 3 (split; [reflexivity|]). split.
  - intros Heq. apply (f_equal (λ l, l !! 0%nat ≫= (.!! "Cookie"))) in Heq.
    vm_compute in Heq. discriminate Heq.
  - intros Heq. apply (f_equal (λ l, closed <$> l !! 0%nat)) in Heq.
    vm_compute in Heq. discriminate Heq.
Qed.



(** C2, as stated, fails for [GetTimings]: after an [Execute] that
    returned the client's timeout error the record it returns holds what
    the observers wrote before the timeout. *)
Lemma failed_Execute_exposes_timings :
  trace.this (example.created example.timed_out) = trace.New (Some example.timed_out) 0 ∧
  ∃ e w', trace.Execute 100 0 (example.created example.timed_out) = Ok (Some e, w') ∧
    Unwrap e = Some example.timeout_error ∧
    (trace.GetTimings w').1 ≠ trace.Timings_zero ∧
    trace.TotalConnectionDuration (trace.GetTimings w').1 = 300000 ∧
    trace.RequestWriteDuration (trace.GetTimings w').1 = 48900.
Proof.
  split; [reflexivity|].
  do 2 eexists. split; [reflexivity|]. split; [reflexivity|].
  split; [discriminate|]. split; reflexivity.
Qed.

Lemma Build_layout_witness :
  requests example.test_store !! 0%nat = Some example.test_request ∧
  req_URL example.test_request =
    Some {| Scheme := "https"; Host := "thing.com"; Path := "" |} ∧
  ∃ r', report.Build example.test_store (example.test_report true true) = (None, r') ∧
    report.request_block example.test_store example.test_request
        {| Scheme := "https"; Host := "thing.com"; Path := "" |} =
      report.request_line example.test_request
        {| Scheme := "https"; Host := "thing.com"; Path := "" |} +:+
      report.range_header "> " (default ∅ (headers example.test_store !! 0%nat)) +:+
      LF +:+ ">" ∧
    report.output r' =
      report.request_block example.test_store example.test_request
        {| Scheme := "https"; Host := "thing.com"; Path := "" |} +:+
      report.status_line example.test_response +:+
      report.trace_section example.test_timings.
Proof.
  split; [reflexivity|]. split; [reflexivity|].
  exact (Build_layout example.test_store (example.test_report true true)
           example.test_request
           {| Scheme := "https"; Host := "thing.com"; Path := "" |}
           example.test_response example.test_timings true
           eq_refl eq_refl eq_refl eq_refl eq_refl).
Defined.

(** C8, as stated, fails on the data of [TestReport]: with both flags
    true the output is not made of the request line, the status line and
    the trace section alone, it has the line of the request header too. *)
Lemma suppressed_report_shows_request_headers :
  ∃ r', report.Build example.test_store (example.test_report true true) = (None, r') ∧
    report.output r' ≠
      report.request_line example.test_request
        {| Scheme := "https"; Host := "thing.com"; Path := "" |} +:+
      LF +:+ ">" +:+
      report.status_line example.test_response +:+
      report.trace_section example.test_timings ∧
    report.output r' =
      report.request_line example.test_request
        {| Scheme := "https"; Host := "thing.com"; Path := "" |} +:+
      LF +:+ "> X-Hello: hi" +:+
      LF +:+ ">" +:+
      report.status_line example.test_response +:+
      report.trace_section example.test_timings.
Proof.
  eexists. split; [reflexivity|]. split.
  - intros Heq. apply (f_equal String.length) in Heq. vm_compute in Heq.
    discriminate.
  - vm_compute. reflexivity.
Qed.

(** * Further properties of the code *)

(** ** SetHeaders *)

Section MoreSetHeaders.
Context {platform : Platform}.

(** X1.  Setting the headers of two lists one after the other is setting the
    headers of their concatenation; a panic in the first list is the
    panic of the whole. *)
Theorem SetHeaders_app (raw1 raw2 : list string) (w : trace.State) :
  trace.SetHeaders (raw1 ++ raw2) w =
  match trace.SetHeaders raw1 w with
  | Ok w1 => trace.SetHeaders raw2 w1
  | Panic p => Panic p
  end.
Proof.
  revert w. induction raw1 as [|full raw1 IH]; intros w; [done|].
  rewrite <- app_comm_cons, !SetHeaders_cons.
  destruct (has_colon full); [|done].
  destruct (trace.request_Header_Set (header_name full) (header_value full) w)
    as [w1|p]; simpl; [apply IH | done].
Qed.

(** X2.  The first line decides how [SetHeaders] fails: without a colon it
    panics with an index out of range before the request is looked at;
    with a colon it panics with a nil dereference when the tracer has no
    request, and with an assignment to a nil map when the request has no
    header map.  The empty list never fails. *)
Theorem SetHeaders_first_line (full : string) (raw : list string) (w : trace.State) :
  trace.SetHeaders [] w = Ok w ∧
  (has_colon full = false →
   trace.SetHeaders (full :: raw) w = Panic IndexOutOfRange) ∧
  (has_colon full = true →
   requests (trace.heap w) !! trace.request (trace.this w) = None →
   trace.SetHeaders (full :: raw) w = Panic NilPointerDereference) ∧
  (has_colon full = true →
   ∀ r, requests (trace.heap w) !! trace.request (trace.this w) = Some r →
        headers (trace.heap w) !! req_Header r = None →
        trace.SetHeaders (full :: raw) w = Panic NilMapAssignment).
Proof.
  split; [done|]. rewrite SetHeaders_cons. split; [by intros ->|]. split.
  - intros -> Hnone. unfold trace.request_Header_Set. by rewrite Hnone.
  - intros -> r Hr Hnone. unfold trace.request_Header_Set. by rewrite Hr, Hnone.
Qed.

Lemma set_all_keeps_dom (raw : list string) :
  ∀ (h : Header) (key : string), is_Some (h !! key) → is_Some (set_all h raw !! key).
Proof.
  induction raw as [|full raw IH]; intros h key Hkey; [done|].
  unfold set_all in *. simpl. apply IH. unfold Header_Set.
  destruct (decide (CanonicalMIMEHeaderKey (header_name full) = key)) as [<-|Hne].
  - rewrite lookup_insert_eq. by eexists.
  - by rewrite lookup_insert_ne.
Qed.

(** X3.  A call of [SetHeaders] that returns changes one object only, the
    header map of the tracer's request: the tracer, the requests, the
    standard error stream and every other header map are as before.  In
    that map no header is removed, and a header whose canonical name no
    line carries keeps its values. *)
Theorem SetHeaders_frame (raw : list string) (w w' : trace.State)
    (r : Request) (h : Header) :
  requests (trace.heap w) !! trace.request (trace.this w) = Some r →
  headers (trace.heap w) !! req_Header r = Some h →
  trace.SetHeaders raw w = Ok w' →
  trace.this w' = trace.this w ∧
  requests (trace.heap w') = requests (trace.heap w) ∧
  trace.stderr w' = trace.stderr w ∧
  length (headers (trace.heap w')) = length (headers (trace.heap w)) ∧
  (∀ p, p ≠ req_Header r →
        headers (trace.heap w') !! p = headers (trace.heap w) !! p) ∧
  ∃ h', headers (trace.heap w') !! req_Header r = Some h' ∧
    (∀ key, is_Some (h !! key) → is_Some (h' !! key)) ∧
    (∀ key, Forall (λ full, CanonicalMIMEHeaderKey (header_name full) ≠ key) raw →
            h' !! key = h !! key).
Proof.
  intros Hr Hh Hok.
  assert (Hall : Forall (λ full, has_colon full = true) raw).
  { assert (Hready : request_ready w) by (by exists r, h).
    destruct (SetHeaders_cases raw w Hready) as [[Hall _]|[_ Hpanic]]; [done|].
    rewrite Hpanic in Hok. discriminate. }
  rewrite (SetHeaders_ok raw w r h Hr Hh Hall) in Hok. injection Hok as <-.
  unfold with_header_map. simpl.
  do 3 (split; [done|]). split; [by rewrite length_insert|]. split.
  - intros p Hp. by rewrite list_lookup_insert_ne.
  - exists (set_all h raw). split; [|split].
    + apply list_lookup_insert_eq. by eapply lookup_lt_Some.
    + intros key. apply set_all_keeps_dom.
    + intros key. apply set_all_untouched.
Qed.

End MoreSetHeaders.

(** ** Execute *)

(** X4.  [Execute] panics with a nil dereference when the request
    pointer of the tracer is nil (line 105), whatever its client, and
    when its client pointer is nil and its request has a URL (line 106);
    in both cases no client answers, whatever the clock reads. *)
Theorem Execute_panics_on_nil_pointer (requestStartTime finishTime : Duration)
    (w : trace.State) :
  requests (trace.heap w) !! trace.request (trace.this w) = None ∨
  (trace.client (trace.this w) = None ∧
   ∃ r u, requests (trace.heap w) !! trace.request (trace.this w) = Some r ∧
          req_URL r = Some u) →
  trace.Execute requestStartTime finishTime w = Panic NilPointerDereference ∧
  trace.exchange w = None.
Proof.
  intros [Hr|(Hc & r & u & Hr & _)].
  - unfold trace.exchange, trace.Execute, trace.attach_trace, deref.
    by rewrite Hr.
  - unfold trace.exchange, trace.Execute. rewrite (attach_trace_ok w r Hr).
    cbn [attached trace.this trace.client mbind result_bind]. by rewrite Hc.
Qed.

Lemma never_cons (p : event → bool) (e : event) (fired : list event) :
  never p (e :: fired) ↔ p e = false ∧ never p fired.
Proof.
  unfold never. simpl. rewrite andb_true_iff, negb_true_iff. done.
Qed.

(** A duration is written by the observer that closes its phase and by
    no other. *)
Lemma unclosed_phase_kept (fired : list event) :
  ∀ tm : trace.Timings,
    let tm' := foldl trace.observe tm fired in
    (never closes_DNS fired → trace.DNSDuration tm' = trace.DNSDuration tm) ∧
    (never closes_dial fired →
     trace.ConnectionDialDuration tm' = trace.ConnectionDialDuration tm) ∧
    (never closes_TLS fired → trace.TLSDuration tm' = trace.TLSDuration tm) ∧
    (never closes_setup fired →
     trace.TotalConnectionDuration tm' = trace.TotalConnectionDuration tm) ∧
    (never closes_write fired →
     trace.RequestWriteDuration tm' = trace.RequestWriteDuration tm) ∧
    (never closes_delay fired →
     trace.ResponseDelayDuration tm' = trace.ResponseDelayDuration tm) ∧
    trace.ResponseReadDuration tm' = trace.ResponseReadDuration tm ∧
    trace.TotalRequestDuration tm' = trace.TotalRequestDuration tm.
Proof.
  induction fired as [|e fired IH]; intros tm; [done|].
  simpl. destruct (IH (trace.observe tm e)) as (H1 & H2 & H3 & H4 & H5 & H6 & H7 & H8).
  repeat split;
    try (intros [He Hn]%never_cons);
    rewrite ?H1, ?H2, ?H3, ?H4, ?H5, ?H6, ?H7, ?H8 by done;
    destruct tm; destruct e as [?|[] ? ?|? ?|?|?|?|?|?|?|? ?];
    try discriminate He; done.
Qed.

Lemma finish_keeps_phases (requestStartTime finishTime : Duration)
    (tm : trace.Timings) :
  let tm' := finish requestStartTime finishTime tm in
  trace.RequestWriteDuration tm' = trace.RequestWriteDuration tm ∧
  trace.ResponseDelayDuration tm' = trace.ResponseDelayDuration tm.
Proof. by destruct tm. Qed.

(** X5.  On a tracer made by [New], whatever observers fire and whatever the
    client returns, a duration whose closing observer did not fire is
    zero after [Execute]: no DNS lookup, no dial or no TLS handshake
    reported as done, no connection reported as new, no request reported
    as written, no first byte reported. *)
Theorem unclosed_phases_are_zero (requestStartTime finishTime : Duration)
    (w : trace.State) (c : option Client) (q : nat) (fired : list event)
    (res : error + Response) :
  trace.this w = trace.New c q →
  trace.exchange w = Some (fired, res) →
  ∃ e w', trace.Execute requestStartTime finishTime w = Ok (e, w') ∧
    (never closes_DNS fired → trace.DNSDuration (trace.GetTimings w').1 = 0) ∧
    (never closes_dial fired →
     trace.ConnectionDialDuration (trace.GetTimings w').1 = 0) ∧
    (never closes_TLS fired → trace.TLSDuration (trace.GetTimings w').1 = 0) ∧
    (never closes_setup fired →
     trace.TotalConnectionDuration (trace.GetTimings w').1 = 0) ∧
    (never closes_write fired →
     trace.RequestWriteDuration (trace.GetTimings w').1 = 0) ∧
    (never closes_delay fired →
     trace.ResponseDelayDuration (trace.GetTimings w').1 = 0).
Proof.
  intros Hnew Hex.
  destruct (unclosed_phase_kept fired trace.Timings_zero)
    as (H1 & H2 & H3 & H4 & H5 & H6 & _).
  destruct res as [err|resp].
  - destruct (Execute_error requestStartTime finishTime w fired err Hex)
      as (r & cl & σl & _ & _ & _ & ->).
    do 2 eexists. split; [reflexivity|]. simpl. unfold observed. rewrite Hnew.
    simpl. repeat split; intros Hn; auto.
  - destruct (Execute_success requestStartTime finishTime w fired resp Hex)
      as (r & cl & σl & _ & _ & _ & ->).
    do 2 eexists. split; [reflexivity|]. simpl. unfold observed. rewrite Hnew.
    simpl.
    destruct (finish_keeps_setup requestStartTime finishTime
                (foldl trace.observe trace.Timings_zero fired))
      as (-> & -> & -> & ->).
    destruct (finish_keeps_phases requestStartTime finishTime
                (foldl trace.observe trace.Timings_zero fired))
      as (-> & ->).
    repeat split; intros Hn; auto.
Qed.

(** X6.  On a tracer made by [New], an [Execute] that fails on an error of
    the client leaves the response read duration and the total request
    duration at zero, whatever observers fired: only the end of a
    successful [Execute] writes them. *)
Theorem failed_Execute_has_no_total (requestStartTime finishTime : Duration)
    (w : trace.State) (c : option Client) (q : nat) (fired : list event) (err : error) :
  trace.this w = trace.New c q →
  trace.exchange w = Some (fired, inl err) →
  ∃ e w', trace.Execute requestStartTime finishTime w = Ok (Some e, w') ∧
    trace.ResponseReadDuration (trace.GetTimings w').1 = 0 ∧
    trace.TotalRequestDuration (trace.GetTimings w').1 = 0.
Proof.
  intros Hnew Hex.
  destruct (unclosed_phase_kept fired trace.Timings_zero)
    as (_ & _ & _ & _ & _ & _ & H7 & H8).
  destruct (Execute_error requestStartTime finishTime w fired err Hex)
    as (r & cl & σl & _ & _ & _ & ->).
  do 2 eexists. split; [reflexivity|]. simpl. unfold observed. rewrite Hnew.
  simpl. by rewrite H7, H8.
Qed.

(** X7.  [Execute] writes to the standard error stream in one case only, a
    response whose body cannot be read.  On an error of the client, and
    on a response whose body is read to its end, the stream is as
    before; in the latter case the stored body is the data read. *)
Theorem Execute_stderr (requestStartTime finishTime : Duration)
    (w : trace.State) (fired : list event) (res : error + Response) :
  trace.exchange w = Some (fired, res) →
  ∃ e w', trace.Execute requestStartTime finishTime w = Ok (e, w') ∧
    (trace.stderr w' = trace.stderr w ↔
     ¬ ∃ resp err, res = inr resp ∧ body_err (resp_Body resp) = Some err) ∧
    (∀ resp, res = inr resp → body_err (resp_Body resp) = None →
             trace.GetResponseBody w' = (body_data (resp_Body resp), w')).
Proof.
  intros Hex. destruct res as [err|resp].
  - destruct (Execute_error requestStartTime finishTime w fired err Hex)
      as (r & cl & σl & _ & _ & _ & ->).
    do 2 eexists. split; [reflexivity|]. simpl. split; [|done].
    split; [|done]. by intros _ (resp & e & ? & _).
  - destruct (Execute_success requestStartTime finishTime w fired resp Hex)
      as (r & cl & σl & _ & _ & _ & ->).
    do 2 eexists. split; [reflexivity|]. simpl.
    destruct (body_err (resp_Body resp)) as [err|] eqn:Herr.
    + split; [|by intros resp' [= <-] Hnone; congruence]. split.
      * intros Heq. apply (f_equal length) in Heq.
        rewrite length_app in Heq. simpl in Heq. lia.
      * intros Hno. exfalso. apply Hno. by exists resp, err.
    + split.
      * split; [|done]. intros _ (resp' & e & [= <-] & He). congruence.
      * by intros resp' [= <-] _.
Qed.

(** ** The phases of one round trip *)

Lemma round_trip_phase_values (requestStartTime finishTime : Duration)
    (rt : round_trip) :
  ascending 0 (readings requestStartTime rt finishTime) →
  let tm := finish requestStartTime finishTime
              (foldl trace.observe trace.Timings_zero (schedule rt)) in
  trace.RequestWriteDuration tm = (at_Wrote rt).1 - at_requestStart rt ∧
  trace.ResponseDelayDuration tm = (at_FirstByte rt).1 - (at_Wrote rt).2 ∧
  trace.ResponseReadDuration tm = finishTime - (at_FirstByte rt).2 ∧
  match conn rt with
  | Dialled dns dial tls got =>
      trace.DNSDuration tm = span_length dns ∧
      trace.ConnectionDialDuration tm = span_length dial ∧
      trace.TLSDuration tm = span_length tls ∧
      trace.TotalConnectionDuration tm = got - at_GetConn rt
  | Pooled => trace.TotalConnectionDuration tm = 0
  end ∧
  Forall (λ d, 0 ≤ d)
    [trace.DNSDuration tm; trace.ConnectionDialDuration tm; trace.TLSDuration tm;
     trace.TotalConnectionDuration tm; trace.RequestWriteDuration tm;
     trace.ResponseDelayDuration tm; trace.ResponseReadDuration tm;
     trace.TotalRequestDuration tm].
Proof.
  destruct rt as [g cn rs [w1 w2] [f1 f2]].
  destruct cn as [[[d1 d2]|] [[c1 c2]|] [[t1 t2]|] got|];
    unfold readings, schedule, finish, span_length;
    cbn -[Duration_sub Z.pow Z.sub Z.add]; intros Hasc;
    rewrite ?Duration_sub_0_0, ?Duration_sub_exact by lia;
    (split; [lia|split; [lia|split; [lia|split; [lia|]]]]);
    repeat (constructor; try lia).
Qed.

(** X8.  On a tracer made by [New], after one round trip on a monotonic
    clock each duration is the difference of the two readings that bound
    its phase: the request write runs from the reading that ends
    [GotConn] to the first reading of [WroteRequest], the response delay
    from the second reading of [WroteRequest] to the first one of
    [GotFirstResponseByte], the response read from the second reading of
    [GotFirstResponseByte] to the end of the body read; for a dialled
    connection the DNS, dial and TLS durations run from their start to
    their done observer (zero for a pair that did not fire) and the
    connection set-up from [GetConn] to [GotConn].  None of the eight
    durations is negative. *)
Theorem round_trip_phases (requestStartTime finishTime : Duration)
    (w : trace.State) (c : option Client) (q : nat) (rt : round_trip) (resp : Response) :
  trace.this w = trace.New c q →
  trace.exchange w = Some (schedule rt, inr resp) →
  ascending 0 (readings requestStartTime rt finishTime) →
  ∃ w', trace.Execute requestStartTime finishTime w = Ok (None, w') ∧
    let tm := (trace.GetTimings w').1 in
    trace.RequestWriteDuration tm = (at_Wrote rt).1 - at_requestStart rt ∧
    trace.ResponseDelayDuration tm = (at_FirstByte rt).1 - (at_Wrote rt).2 ∧
    trace.ResponseReadDuration tm = finishTime - (at_FirstByte rt).2 ∧
    match conn rt with
    | Dialled dns dial tls got =>
        trace.DNSDuration tm = span_length dns ∧
        trace.ConnectionDialDuration tm = span_length dial ∧
        trace.TLSDuration tm = span_length tls ∧
        trace.TotalConnectionDuration tm = got - at_GetConn rt
    | Pooled => trace.TotalConnectionDuration tm = 0
    end ∧
    Forall (λ d, 0 ≤ d)
      [trace.DNSDuration tm; trace.ConnectionDialDuration tm; trace.TLSDuration tm;
       trace.TotalConnectionDuration tm; trace.RequestWriteDuration tm;
       trace.ResponseDelayDuration tm; trace.ResponseReadDuration tm;
       trace.TotalRequestDuration tm].
Proof.
  intros Hnew Hex Hasc.
  destruct (Execute_success requestStartTime finishTime w _ resp Hex)
    as (r & cl & σl & _ & _ & _ & ->).
  eexists. split; [reflexivity|].
  unfold trace.GetTimings, observed. cbn [fst trace.this trace.timings].
  rewrite Hnew. cbn [trace.New trace.timings].
  exact (round_trip_phase_values requestStartTime finishTime rt Hasc).
Qed.

(** ** From the header lines to the client *)

Section Pipeline.
Context {platform : Platform}.

(** X9.  [New] with a client, then [SetHeaders] on lines that all have a
    colon, then [Execute]: the call of the client returns; the request
    handed to the client is a new object whose header map is the map of
    the caller's request with every line set, and what [Execute] returns
    and records follows from the client's answer to that request.  The
    caller's request is still at its address, unchanged; its header map
    is the one handed to the client, as the client leaves it: with every
    line set and nothing else when the client has no cookie jar. *)
Theorem headers_reach_the_client (requestStartTime finishTime : Duration)
    (raw : list string) (c : Client) (p : nat) (σ : Heap) (out : list string)
    (r : Request) (h : Header) :
  requests σ !! p = Some r →
  headers σ !! req_Header r = Some h →
  Forall (λ full, has_colon full = true) raw →
  ∃ w1 e w2 sent,
    trace.SetHeaders raw (trace.mkState (trace.New (Some c) p) σ out) = Ok w1 ∧
    trace.Execute requestStartTime finishTime w1 = Ok (e, w2) ∧
    (requests (trace.heap (attached r w1)) !! length (requests σ) = Some sent ∧
     headers (trace.heap (attached r w1)) !! req_Header sent
       = Some (set_all h raw) ∧
     req_Header sent = req_Header r ∧
     req_Method sent = req_Method r ∧
     req_URL sent = req_URL r ∧
     req_Body sent = req_Body r) ∧
    (e = error_of (Do c (trace.heap (attached r w1)) (length (requests σ))).2 ∧
     trace.timings (trace.this w2) =
       record_of requestStartTime finishTime trace.Timings_zero
         (Do c (trace.heap (attached r w1)) (length (requests σ)))) ∧
    (trace.request (trace.this w2) = length (requests σ) ∧
     trace.request (trace.this w2) ≠ p ∧
     requests (trace.heap w2) !! p = Some r) ∧
    Do_store c (trace.heap (attached r w1)) (length (requests σ))
      = Ok (trace.heap w2) ∧
    (Jar c = None →
     headers (trace.heap w2) !! req_Header r = Some (set_all h raw)).
Proof.
  intros Hr Hh Hall.
  set (w := trace.mkState (trace.New (Some c) p) σ out).
  pose proof (SetHeaders_ok raw w r h Hr Hh Hall) as Hset.
  set (w1 := with_header_map (req_Header r) (set_all h raw) w) in *.
  assert (Hr1 : requests (trace.heap w1) !! trace.request (trace.this w1) = Some r)
    by done.
  assert (Hmap : headers (trace.heap (attached r w1)) !! req_Header r
                 = Some (set_all h raw)).
  { simpl. apply list_lookup_insert_eq. by eapply lookup_lt_Some. }
  destruct (Do_store_ok c (trace.heap (attached r w1)) (length (requests σ))
              (derived_request r) (attached_sent w1 r)) as [σ2 Hstore].
  { left. by eexists. }
  destruct (Execute_answer requestStartTime finishTime w1 r c σ2 Hr1 eq_refl Hstore)
    as (e & w2 & Hexec & He & _ & Htm & Hreq & _ & Hheap).
  destruct (Do_store_frame c _ σ2 _ (derived_request r) (attached_sent w1 r) Hstore)
    as (Hrq & _ & Hjar & _).
  exists w1, e, w2, (derived_request r).
  split; [done|]. split; [done|].
  split; [by split; [apply (attached_sent w1 r)|]|].
  split; [done|]. rewrite Hreq, Hheap, Hrq.
  apply lookup_lt_Some in Hr as Hlt. split.
  { split; [done|]. split; [simpl; lia|]. simpl. by apply lookup_app_l_Some. }
  split; [done|].
  intros Hno. by rewrite (Hjar Hno).
Qed.

End Pipeline.

(** ** The report, further *)

Lemma Join_no_separator (elems : list string) : Join elems "" = concat_strings elems.
Proof.
  induction elems as [|e [|e' rest] IH]; [done| |].
  - simpl. clear IH. induction e as [|x e IHe]; [done|].
    change (String x e = String x (e +:+ "")). by f_equal.
  - change (e +:+ "" +:+ Join (e' :: rest) "" = e +:+ concat_strings (e' :: rest)).
    by rewrite IH.
Qed.

Section MoreReport.
Context {platform : Platform} {run : MapIteration}.

Lemma range_header_lines (prefix : string) (m : Header) :
  report.range_header prefix m =
  concat_strings ((λ key, header_line prefix key (m !!! key)) <$>
                  merge_sort String.le (MapKeys m)).
Proof.
  unfold report.range_header.
  induction (merge_sort String.le (MapKeys m)) as [|k ks IH]; [done|].
  simpl. rewrite IH. unfold header_line, report.stringsJoin.
  rewrite Join_no_separator. by rewrite !string_app_assoc.
Qed.

(** X10.  The header lines of a map come one per header, in ascending order
    of the header names compared byte by byte; the line of a header is a
    line feed, the prefix, the name, a colon and a space, and the values
    of the header one after the other with nothing between them. *)
Theorem header_lines_sorted (prefix : string) (m : Header) :
  ∃ keys,
    Sorted String.le keys ∧ NoDup keys ∧
    (∀ key, key ∈ keys ↔ is_Some (m !! key)) ∧
    report.range_header prefix m =
      concat_strings ((λ key, header_line prefix key (m !!! key)) <$> keys).
Proof.
  exists (merge_sort String.le (MapKeys m)).
  assert (Hperm : merge_sort String.le (MapKeys m) ≡ₚ elements (dom m))
    by (by rewrite merge_sort_Permutation, MapKeys_keys).
  split; [apply Sorted_merge_sort, _|]. split; [|split].
  - rewrite Hperm. apply NoDup_elements.
  - intros key. by rewrite Hperm, elem_of_elements, elem_of_dom.
  - apply range_header_lines.
Qed.

Lemma MapKeys_empty : MapKeys (∅ : Header) = [].
Proof.
  apply Permutation_nil_r. rewrite MapKeys_keys.
  by rewrite dom_empty_L, elements_empty.
Qed.

(** X11.  A map without headers gives no line, and a request whose header map
    is nil or empty has a request block made of the request line and the
    closing [>] alone. *)
Theorem no_headers_no_lines (prefix : string) (σ : Heap) (req : Request) (u : URL) :
  report.range_header prefix ∅ = "" ∧
  (headers σ !! req_Header req = None ∨ headers σ !! req_Header req = Some ∅ →
   report.request_block σ req u = report.request_line req u +:+ LF +:+ ">").
Proof.
  assert (Hempty : ∀ pre, report.range_header pre ∅ = "").
  { intros pre. unfold report.range_header. by rewrite MapKeys_empty. }
  split; [apply Hempty|].
  intros [Hnil|Hnil]; unfold report.request_block; rewrite Hnil; simpl;
    by rewrite Hempty.
Qed.

(** X12.  [Build] succeeds exactly when the request, its URL, the response,
    the presentation and the timing record are all there.  When it
    fails it leaves the report as it was, and the error it returns wraps
    the error of the template with the prefix ["Error building report: "]. *)
Theorem Build_fails_iff_nil (σ : Heap) (r : report.Report) :
  ((report.Build σ r).1 = None ↔ report_ready σ (report.data r)) ∧
  (∀ err, (report.Build σ r).1 = Some err →
     (report.Build σ r).2 = r ∧
     ∃ cause, Unwrap err = Some cause ∧
              Error err = "Error building report: " +:+ Error cause).
Proof.
  unfold report.Build, report.execute_outputTmpl, report_ready.
  destruct (requests σ !! report.Request (report.data r)) as [req|];
    [|split; [split; [done|by intros [(? & ? & _) _]]|
              intros err [= <-]; split; [done|by eexists]]].
  destruct (req_URL req) as [u|] eqn:Hu;
    [|split; [split; [done|intros [(req' & [= <-] & Hsome) _];
                           rewrite Hu in Hsome; by destruct Hsome]|
              intros err [= <-]; split; [done|by eexists]]].
  destruct (report.Response (report.data r)) as [res|];
    [|split; [split; [done|by intros (_ & [? ?] & _)]|
              intros err [= <-]; split; [done|by eexists]]].
  destruct (report.Presentation' (report.data r)) as [pres|];
    [|split; [split; [done|by intros (_ & _ & [? ?] & _)]|
              intros err [= <-]; split; [done|by eexists]]].
  destruct (report.Timings (report.data r)) as [tm|];
    [|split; [split; [done|by intros (_ & _ & _ & [? ?])]|
              intros err [= <-]; split; [done|by eexists]]].
  simpl. split; [|done]. split; [|done]. intros _.
  split; [exists req; by rewrite Hu|]. by repeat split.
Qed.

(** X13.  [Build] reads the data of the report and nothing else: it leaves the
    data unchanged, a second [Build] gives the result of the first, and
    what the output was before does not matter (it is replaced, not
    extended). *)
Theorem Build_again (σ : Heap) (r : report.Report) (previous : string) :
  report.data (report.Build σ r).2 = report.data r ∧
  report.Build σ (report.Build σ r).2 = report.Build σ r ∧
  ((report.Build σ r).1 = None →
   report.Build σ {| report.data := report.data r; report.output := previous |}
   = report.Build σ r).
Proof.
  unfold report.Build.
  destruct (report.execute_outputTmpl σ (report.data r)) as [err|out] eqn:Hexec;
    simpl.
  - by rewrite Hexec.
  - by rewrite Hexec.
Qed.

(** X14.  Each flag takes one block out of the report and changes nothing
    else: with the response headers suppressed the output is the output
    with them minus their lines, and with the body suppressed it is the
    output with the body minus the line feed and the body. *)
Theorem suppression_removes_one_block (σ : Heap) (r : report.Report) (req : Request)
    (u : URL) (res : Response) (tm : trace.Timings)
    (suppressHeaders suppressBody : bool) :
  requests σ !! report.Request (report.data r) = Some req →
  req_URL req = Some u →
  report.Response (report.data r) = Some res →
  report.Timings (report.data r) = Some tm →
  report.Presentation' (report.data r) =
    Some {| report.SuppressHeaders := suppressHeaders;
            report.SuppressBody := suppressBody |} →
  let out := layout σ req u res (report.ResponseBody (report.data r)) tm in
  ∃ r', report.Build σ r = (None, r') ∧
    report.output r' = out suppressHeaders suppressBody ∧
    (∃ pre post,
       out false suppressBody =
         pre +:+ report.range_header "< " (resp_Header res) +:+ post ∧
       out true suppressBody = pre +:+ post) ∧
    (∃ pre post,
       out suppressHeaders false =
         pre +:+ (LF +:+ report.ResponseBody (report.data r)) +:+ post ∧
       out suppressHeaders true = pre +:+ post).
Proof.
  intros Hreq Hu Hres Htm Hpres out.
  unfold report.Build, report.execute_outputTmpl.
  rewrite Hreq, Hu, Hres, Hpres, Htm. simpl.
  eexists. split; [reflexivity|]. simpl. unfold out, layout.
  split; [by destruct suppressHeaders, suppressBody|]. split.
  - exists (report.request_block σ req u +:+ report.status_line res),
           ((if suppressBody then ""
             else LF +:+ report.ResponseBody (report.data r)) +:+
            report.trace_section tm).
    by rewrite !string_app_assoc.
  - exists (report.request_block σ req u +:+ report.status_line res +:+
            (if suppressHeaders then ""
             else report.range_header "< " (resp_Header res))),
           (report.trace_section tm).
    by rewrite !string_app_assoc.
Qed.

(** X15.  Every duration of the timing record is in the output of a report
    that builds, formatted by [durationMillis], whatever the flags. *)
Theorem every_duration_is_reported (σ : Heap) (r r' : report.Report)
    (tm : trace.Timings) :
  report.Timings (report.data r) = Some tm →
  report.Build σ r = (None, r') →
  Forall (λ d, occurs_in (report.durationMillis d) (report.output r'))
    [trace.DNSDuration tm; trace.ConnectionDialDuration tm; trace.TLSDuration tm;
     trace.TotalConnectionDuration tm; trace.RequestWriteDuration tm;
     trace.ResponseDelayDuration tm; trace.ResponseReadDuration tm;
     trace.TotalRequestDuration tm].
Proof.
  intros Htm. unfold report.Build, report.execute_outputTmpl. rewrite Htm.
  destruct (requests σ !! report.Request (report.data r)) as [req|]; [|done].
  destruct (req_URL req) as [u|]; [|done].
  destruct (report.Response (report.data r)) as [res|]; [|done].
  destruct (report.Presentation' (report.data r)) as [pres|]; [|done].
  intros [= <-]. simpl. unfold report.trace_section.
  repeat constructor;
    do 4 apply occurs_in_app_l;
    repeat first [apply occurs_in_prefix | apply occurs_in_app_l].
Qed.

End MoreReport.

(** ** The program *)

Lemma headerSlice_Set_all (values h : list string) :
  foldl (λ h value, (main.headerSlice_Set value h).2) h values = h ++ values.
Proof.
  revert h. induction values as [|v values IH]; intros h; simpl.
  - by rewrite app_nil_r.
  - rewrite IH. by rewrite <- app_assoc.
Qed.

Section MoreMain.
Context {platform : Platform} {run : MapIteration}.

(** The state in which [main] calls [Execute]. *)
Lemma main_state_ready (c : option Client) (p : nat) (σ : Heap) (r : Request) (h h' : Header) :
  requests σ !! p = Some r →
  headers σ !! req_Header r = Some h →
  let w1 := with_header_map (req_Header r) h' (trace.mkState (trace.New c p) σ []) in
  requests (trace.heap w1) !! trace.request (trace.this w1) = Some r ∧
  requests (trace.heap (attached r w1)) !! p = Some r ∧
  headers (trace.heap (attached r w1)) !! req_Header r = Some h'.
Proof.
  intros Hr Hh. simpl. split; [done|]. split.
  - by apply lookup_app_l_Some.
  - apply list_lookup_insert_eq. by eapply lookup_lt_Some.
Qed.

(** X16.  A run of the program that succeeds.  When a URL is given, the
    request is built, every [-H] line has a colon, the client returns a
    response and the standard output takes the write, [main] ends with
    status 0 after one write to the standard output: the request line of
    the request that [http.NewRequest] built, one line per header of its
    header map after the [-H] lines have been set in it, the status
    line, the blocks that the two flags allow, and the trace section of
    the timing record that [Execute] finished.  The standard error
    stream has the message of the body read error, if there was one, and
    nothing else. *)
Theorem main_prints_the_report (env : main.World) (f : main.Flags)
    (url : string) (rest : list string) (p : nat) (σ : Heap) (r : Request)
    (u : URL) (h : Header) (fired : list event) (resp : Response) :
  main.args f = url :: rest →
  main.NewRequest env (main.method f) url (main.requestBody f) = (inr p, σ) →
  requests σ !! p = Some r →
  req_URL r = Some u →
  headers σ !! req_Header r = Some h →
  Forall (λ full, has_colon full = true) (main.requestHeaders f) →
  trace.exchange
    (with_header_map (req_Header r) (set_all h (main.requestHeaders f))
       (trace.mkState
          (trace.New (main.httpClient env f) p)
          σ [])) = Some (fired, inr resp) →
  main.stdout_fault env = None →
  main.main env f =
  Ok {| main.stdout :=
          [report.request_line r u +:+
           report.range_header "> " (set_all h (main.requestHeaders f)) +:+
           LF +:+ ">" +:+
           report.status_line resp +:+
           (if main.suppressResponseHeaders f then ""
            else report.range_header "< " (resp_Header resp)) +:+
           (if main.suppressResponseBody f then ""
            else LF +:+
                 match body_err (resp_Body resp) with
                 | Some err => "Error reading response body: " +:+ Error err
                 | None => body_data (resp_Body resp)
                 end) +:+
           report.trace_section
             (finish (main.clock env).1 (main.clock env).2
                (foldl trace.observe trace.Timings_zero fired))];
        main.stderr :=
          match body_err (resp_Body resp) with
          | Some err => [("Error reading response body: " +:+ Error err) +:+ LF]
          | None => []
          end;
        main.status := 0 |}.
Proof.
  intros Hargs Hnew Hr Hu Hh Hall Hex Hout.
  unfold main.main. rewrite Hargs, Hnew.
  set (c := main.httpClient env f) in *.
  rewrite (SetHeaders_ok _ (trace.mkState (trace.New c p) σ []) r h Hr Hh Hall).
  simpl.
  destruct (main_state_ready c p σ r h (set_all h (main.requestHeaders f)) Hr Hh)
    as (Hr1 & Hp & Hmap).
  destruct (Execute_success (main.clock env).1 (main.clock env).2 _ fired resp Hex)
    as (r' & c' & σ' & Hr' & Hc' & Hstore & ->).
  assert (r' = r) as -> by congruence.
  assert (Hnojar : Jar c' = None) by (by injection Hc' as <-).
  destruct (Do_store_frame c' _ σ' _ (derived_request r) (attached_sent _ r) Hstore)
    as (Hrq & _ & Hjar & _).
  specialize (Hjar Hnojar).
  cbn [mbind result_bind]. unfold trace.GetResponse, trace.GetResponseBody,
    trace.GetTimings. cbn [trace.this trace.heap trace.stderr trace.response
    trace.responseBody trace.timings fst snd].
  unfold report.Build, report.execute_outputTmpl, report.New.
  cbn [report.data report.Request report.Response report.ResponseBody
       report.Timings report.Presentation' report.output].
  rewrite Hrq, Hp, Hu. unfold report.request_block. rewrite Hjar, Hmap.
  cbn [report.SuppressHeaders report.SuppressBody default from_option].
  unfold report.Print, Fprint. cbn [fault written report.output]. rewrite Hout.
  cbn [app]. unfold observed. cbn [trace.this trace.timings trace.New with_header_map].
  destruct (body_err (resp_Body resp)), (main.suppressResponseHeaders f),
    (main.suppressResponseBody f);
    cbn [written negb id trace.stderr app]; rewrite !string_app_assoc; reflexivity.
Qed.

(** X17.  A run in which the client fails.  When a URL is given, the request
    is built and every [-H] line has a colon, an error of the client
    ends [main] with status 1, nothing on the standard output, and on
    the standard error stream the single line ["Error: error sending
    request: "] followed by the message of the client's error. *)
Theorem main_reports_client_error (env : main.World) (f : main.Flags)
    (url : string) (rest : list string) (p : nat) (σ : Heap) (r : Request)
    (h : Header) (fired : list event) (err : error) :
  main.args f = url :: rest →
  main.NewRequest env (main.method f) url (main.requestBody f) = (inr p, σ) →
  requests σ !! p = Some r →
  headers σ !! req_Header r = Some h →
  Forall (λ full, has_colon full = true) (main.requestHeaders f) →
  trace.exchange
    (with_header_map (req_Header r) (set_all h (main.requestHeaders f))
       (trace.mkState
          (trace.New (main.httpClient env f) p)
          σ [])) = Some (fired, inl err) →
  main.main env f =
  Ok {| main.stdout := [];
        main.stderr := [("Error: " +:+ "error sending request: " +:+ Error err) +:+ LF];
        main.status := 1 |}.
Proof.
  intros Hargs Hnew Hr Hh Hall Hex.
  unfold main.main. rewrite Hargs, Hnew.
  set (c := main.httpClient env f) in *.
  rewrite (SetHeaders_ok _ (trace.mkState (trace.New c p) σ []) r h Hr Hh Hall).
  simpl.
  destruct (Execute_error (main.clock env).1 (main.clock env).2 _ fired err Hex)
    as (r' & c' & σ' & _ & _ & _ & ->).
  cbn [mbind result_bind]. unfold main.exitWithError.
  cbn [trace.stderr with_header_map app Errorf_w Error].
  by rewrite !string_app_assoc.
Qed.

(** X18.  A [-H] line without a colon makes the program panic with an index
    out of range, when a URL is given and the request is built: [main]
    does not report it as an error of the command line. *)
Theorem main_panics_on_header_without_colon (env : main.World) (f : main.Flags)
    (url : string) (rest : list string) (p : nat) (σ : Heap) (r : Request)
    (h : Header) :
  main.args f = url :: rest →
  main.NewRequest env (main.method f) url (main.requestBody f) = (inr p, σ) →
  requests σ !! p = Some r →
  headers σ !! req_Header r = Some h →
  Exists (λ full, has_colon full = false) (main.requestHeaders f) →
  main.main env f = Panic IndexOutOfRange.
Proof.
  intros Hargs Hnew Hr Hh Hbad.
  unfold main.main. rewrite Hargs, Hnew.
  set (w := trace.mkState _ σ []).
  assert (Hready : request_ready w) by (by exists r, h).
  destruct (SetHeaders_cases (main.requestHeaders f) w Hready)
    as [[Hall _]|[_ ->]]; [|done].
  exfalso. apply Exists_exists in Hbad as (full & Hin & Hno).
  rewrite Forall_forall in Hall. specialize (Hall full Hin). congruence.
Qed.

(** X19.  Without a URL [main] ends with status 1 and the line ["Error: no url
    specified"]; when [http.NewRequest] refuses the method or the URL it
    ends with status 1 and the message of that error.  In both cases
    nothing is written to the standard output. *)
Theorem main_rejects_command_line (env : main.World) (f : main.Flags) :
  (main.args f = [] →
   main.main env f =
   Ok {| main.stdout := [];
         main.stderr := ["Error: no url specified" +:+ LF];
         main.status := 1 |}) ∧
  (∀ url rest err σ,
     main.args f = url :: rest →
     main.NewRequest env (main.method f) url (main.requestBody f) = (inl err, σ) →
     main.main env f =
     Ok {| main.stdout := [];
           main.stderr := ["Error: " +:+ Error err +:+ LF];
           main.status := 1 |}).
Proof.
  split.
  - intros Hargs. unfold main.main. by rewrite Hargs.
  - intros url rest err σ Hargs Hnew. unfold main.main. by rewrite Hargs, Hnew.
Qed.

(** X20.  Every run of the program that ends without a panic ends in
    one of four ways: with status 0 after exactly one write to the standard
    output; with status 1 and, last on the standard error stream, a line
    ["Error: "] followed by the message of an error; with status 2 and
    nothing on the standard output, when [flag.Parse] rejects the
    command line; or with status 0 and nothing on the standard output,
    when [flag.Parse] is asked for help. *)
Theorem main_exit_status (env : main.World) (parse : main.Parse) (x : main.Exit) :
  main.program env parse = Ok x →
  (main.status x = 0 ∧ (∃ f, parse = main.Returned f) ∧
   ∃ text, main.stdout x = [text]) ∨
  (main.status x = 1 ∧ (∃ f, parse = main.Returned f) ∧
   ∃ err errs, main.stderr x = errs ++ ["Error: " +:+ Error err +:+ LF]) ∨
  (main.status x = 2 ∧ main.stdout x = [] ∧
   ∃ message, parse = main.Rejected message ∧ main.stderr x = message) ∨
  (main.status x = 0 ∧ main.stdout x = [] ∧
   ∃ usage, parse = main.Help usage ∧ main.stderr x = usage).
Proof.
  destruct parse as [f|message|usage]; simpl;
    [|intros [= <-]; right; right; left; by eauto
     |intros [= <-]; right; right; right; by eauto].
  unfold main.main.
  destruct (main.args f) as [|url rest].
  { intros [= <-]. right; left. split; [done|]. split; [by eauto|].
    by exists (errorString "no url specified"), []. }
  destruct (main.NewRequest env (main.method f) url (main.requestBody f))
    as [[err|p] σ].
  { intros [= <-]. right; left. split; [done|]. split; [by eauto|].
    by exists err, []. }
  destruct (trace.SetHeaders (main.requestHeaders f) _) as [w|?]; [|done].
  cbn [mbind result_bind].
  destruct (trace.Execute (main.clock env).1 (main.clock env).2 w)
    as [[[err|] w']|?]; [| |done]; cbn [mbind result_bind].
  { intros [= <-]. right; left. split; [done|]. split; [by eauto|].
    by exists err, (trace.stderr w'). }
  unfold trace.GetResponse, trace.GetResponseBody, trace.GetTimings. cbn [fst snd].
  destruct (report.Build (trace.heap w') _) as [[err|] output].
  { intros [= <-]. right; left. split; [done|]. split; [by eauto|].
    by exists err, (trace.stderr w'). }
  unfold report.Print, Fprint. cbn [fault written].
  destruct (main.stdout_fault env) as [err|]; intros [= <-].
  - right; left. split; [done|]. split; [by eauto|].
    by eexists _, (trace.stderr w').
  - left. split; [done|]. split; [by eauto|]. by eexists.
Qed.

End MoreMain.

(** ** Instances of the further properties *)

Lemma SetHeaders_first_line_witness :
  trace.SetHeaders ["no separator"; "X-Hello: hi"] (example.created example.pooled)
    = Panic IndexOutOfRange ∧
  trace.SetHeaders ["X-Hello: hi"] scenario.no_request = Panic NilPointerDereference ∧
  trace.SetHeaders ["X-Hello: hi"] scenario.no_header_map = Panic NilMapAssignment.
Proof.
  split; [|split].
  - destruct (SetHeaders_first_line "no separator" ["X-Hello: hi"]
                (example.created example.pooled)) as (_ & Hbad & _).
    exact (Hbad eq_refl).
  - destruct (SetHeaders_first_line "X-Hello: hi" [] scenario.no_request)
      as (_ & _ & Hnil & _).
    exact (Hnil eq_refl eq_refl).
  - destruct (SetHeaders_first_line "X-Hello: hi" [] scenario.no_header_map)
      as (_ & _ & _ & Hmap).
    exact (Hmap eq_refl example.request0 eq_refl eq_refl).
Defined.

Lemma SetHeaders_frame_witness :
  trace.SetHeaders ["X-Hello: ho"] scenario.with_headers
    = Ok scenario.with_headers_reset ∧
  ∃ h', headers (trace.heap scenario.with_headers_reset) !! 0%nat = Some h' ∧
    (∀ key, is_Some ((<["Accept" := ["*/*"]]> {["X-Hello" := ["hi"]]} : Header) !! key) →
            is_Some (h' !! key)) ∧
    (∀ key, Forall (λ full, CanonicalMIMEHeaderKey (header_name full) ≠ key)
              ["X-Hello: ho"] →
            h' !! key = (<["Accept" := ["*/*"]]> {["X-Hello" := ["hi"]]} : Header) !! key).
Proof.
  assert (Hset : trace.SetHeaders ["X-Hello: ho"] scenario.with_headers
                 = Ok scenario.with_headers_reset)
    by (vm_compute; reflexivity).
  split; [exact Hset|].
  destruct (SetHeaders_frame ["X-Hello: ho"] scenario.with_headers
              scenario.with_headers_reset example.request0
              (<["Accept" := ["*/*"]]> {["X-Hello" := ["hi"]]})
              eq_refl eq_refl Hset) as (_ & _ & _ & _ & _ & Hmap).
  exact Hmap.
Defined.

Lemma Execute_panics_on_nil_pointer_witness :
  (requests (trace.heap scenario.no_request)
     !! trace.request (trace.this scenario.no_request) = None ∧
   trace.Execute 100 200 scenario.no_request = Panic NilPointerDereference ∧
   trace.exchange scenario.no_request = None) ∧
  (trace.client (trace.this scenario.no_client) = None ∧
   requests (trace.heap scenario.no_client)
     !! trace.request (trace.this scenario.no_client) = Some example.request0 ∧
   is_Some (req_URL example.request0) ∧
   trace.Execute 100 200 scenario.no_client = Panic NilPointerDereference ∧
   trace.exchange scenario.no_client = None).
Proof.
  split.
  - split; [reflexivity|].
    exact (Execute_panics_on_nil_pointer 100 200 scenario.no_request
             (or_introl eq_refl)).
  - split; [reflexivity|]. split; [reflexivity|]. split; [by eexists|].
    exact (Execute_panics_on_nil_pointer 100 200 scenario.no_client
             (or_intror (conj eq_refl
                (ex_intro _ example.request0
                   (ex_intro _ _ (conj eq_refl eq_refl)))))).
Defined.

Lemma unclosed_phases_are_zero_witness :
  never closes_DNS (schedule example.first_hop) ∧
  never closes_TLS (schedule example.first_hop) ∧
  ∃ e w', trace.Execute 100 120100000
            (example.created
               (example.scripted (schedule example.first_hop)
                  (inr example.not_found))) = Ok (e, w') ∧
    trace.DNSDuration (trace.GetTimings w').1 = 0 ∧
    trace.TLSDuration (trace.GetTimings w').1 = 0.
Proof.
  split; [reflexivity|]. split; [reflexivity|].
  destruct (unclosed_phases_are_zero 100 120100000
              (example.created
                 (example.scripted (schedule example.first_hop)
                    (inr example.not_found)))
              _ 0 (schedule example.first_hop) (inr example.not_found)
              eq_refl eq_refl)
    as (e & w' & Hexec & Hdns & _ & Htls & _).
  exists e, w'. split; [exact Hexec|].
  split; [exact (Hdns eq_refl) | exact (Htls eq_refl)].
Defined.

Lemma failed_Execute_has_no_total_witness :
  ∃ e w', trace.Execute 100 0 (example.created example.timed_out) = Ok (Some e, w') ∧
    trace.ResponseReadDuration (trace.GetTimings w').1 = 0 ∧
    trace.TotalRequestDuration (trace.GetTimings w').1 = 0.
Proof.
  exact (failed_Execute_has_no_total 100 0 (example.created example.timed_out)
           (Some example.timed_out) 0 _ example.timeout_error eq_refl eq_refl).
Defined.

Lemma Execute_stderr_witness :
  ∃ e w', trace.Execute 100 100120000 (example.created example.pooled) = Ok (e, w') ∧
    trace.stderr w' = [] ∧
    trace.GetResponseBody w' = ("ok", w').
Proof.
  destruct (Execute_stderr 100 100120000 (example.created example.pooled)
              (schedule example.pooled_round_trip)
              (inr (example.ok200 {| body_data := "ok"; body_err := None |}))
              eq_refl)
    as (e & w' & Hexec & Herr & Hbody).
  exists e, w'. split; [exact Hexec|]. split.
  - apply Herr. intros (resp & err & [= <-] & Hsome). discriminate Hsome.
  - exact (Hbody _ eq_refl eq_refl).
Defined.

Lemma round_trip_phases_witness :
  ascending 0 (readings 100 example.tls_round_trip 805970000) ∧
  ∃ w', trace.Execute 100 805970000 (example.created example.answered_404)
          = Ok (None, w') ∧
    let tm := (trace.GetTimings w').1 in
    trace.RequestWriteDuration tm = 324979000 - 324931100 ∧
    trace.ResponseDelayDuration tm = 805945000 - 324979100 ∧
    trace.ResponseReadDuration tm = 805970000 - 805945100 ∧
    (trace.DNSDuration tm = 2293000 - 2000 ∧
     trace.ConnectionDialDuration tm = 24964000 - 2300000 ∧
     trace.TLSDuration tm = 324711000 - 24970000 ∧
     trace.TotalConnectionDuration tm = 324931000 - 1000) ∧
    Forall (λ d, 0 ≤ d)
      [trace.DNSDuration tm; trace.ConnectionDialDuration tm; trace.TLSDuration tm;
       trace.TotalConnectionDuration tm; trace.RequestWriteDuration tm;
       trace.ResponseDelayDuration tm; trace.ResponseReadDuration tm;
       trace.TotalRequestDuration tm].
Proof.
  assert (Hasc : ascending 0 (readings 100 example.tls_round_trip 805970000)).
  { cbn. repeat split; lia. }
  split; [exact Hasc|].
  exact (round_trip_phases 100 805970000
           (example.created example.answered_404) (Some example.answered_404) 0
           example.tls_round_trip example.not_found eq_refl eq_refl Hasc).
Defined.

Lemma headers_reach_the_client_witness :
  Jar example.timed_out = None ∧
  ∃ w1 e w2 sent,
    trace.SetHeaders ["X-Hello: hi"] (example.created example.timed_out) = Ok w1 ∧
    trace.Execute 100 0 w1 = Ok (e, w2) ∧
    req_Header sent = 0%nat ∧
    headers (trace.heap (attached example.request0 w1)) !! req_Header sent
      = Some {["X-Hello" := ["hi"]]} ∧
    e = Some (Errorf_w "error sending request: " example.timeout_error) ∧
    trace.timings (trace.this w2) =
      trace.mkTimings 1000 2000 0 0 301100 350100 0 0 298000 0 300000 48900 0 0 0 ∧
    trace.request (trace.this w2) = 1%nat ∧
    requests (trace.heap w2) !! 0%nat = Some example.request0 ∧
    headers (trace.heap w2) !! 0%nat = Some {["X-Hello" := ["hi"]]}.
Proof.
  split; [reflexivity|].
  assert (Hall : Forall (λ full, has_colon full = true) ["X-Hello: hi"])
    by (repeat constructor).
  destruct (headers_reach_the_client 100 0 ["X-Hello: hi"] example.timed_out 0
              example.store0 [] example.request0 ∅ eq_refl eq_refl Hall)
    as (w1 & e & w2 & sent & Hset & Hexec & (_ & Hmap & Hhdr & _) & (He & Htm) &
        (Hreq & _ & Hold) & _ & Hjar).
  exists w1, e, w2, sent.
  split; [exact Hset|]. split; [exact Hexec|]. split; [exact Hhdr|].
  split; [exact Hmap|]. split; [exact He|]. split; [exact Htm|].
  split; [exact Hreq|]. split; [exact Hold|].
  exact (Hjar eq_refl).
Defined.

Lemma suppression_removes_one_block_witness :
  ∃ r', report.Build example.test_store (example.test_report true false) = (None, r') ∧
    report.output r' =
      layout example.test_store example.test_request
        {| Scheme := "https"; Host := "thing.com"; Path := "" |}
        example.test_response example.test_body example.test_timings true false.
Proof.
  destruct (suppression_removes_one_block example.test_store
              (example.test_report true false) example.test_request
              {| Scheme := "https"; Host := "thing.com"; Path := "" |}
              example.test_response example.test_timings true false
              eq_refl eq_refl eq_refl eq_refl eq_refl)
    as (r' & Hbuild & Hout & _).
  exists r'. split; [exact Hbuild | exact Hout].
Defined.

Lemma every_duration_is_reported_witness :
  Forall (λ d, occurs_in (report.durationMillis d)
                 (report.output
                    (report.Build example.test_store
                       (example.test_report true true)).2))
    [2293 * 1000; 22664 * 1000; 299741 * 1000; 324931 * 1000;
     48 * 1000; 480966 * 1000; 22933 * 1000; 828987 * 1000].
Proof.
  exact (every_duration_is_reported example.test_store
           (example.test_report true true)
           (report.Build example.test_store (example.test_report true true)).2
           example.test_timings eq_refl eq_refl).
Defined.

Lemma main_prints_the_report_witness :
  main.main (scenario.world example.pooled None)
    (scenario.flags ["X-Hello: hi"] ["https://example.com"]) =
  Ok {| main.stdout :=
          ["> GET example.com HTTP/1.1" +:+ LF +:+
           "> X-Hello: hi" +:+ LF +:+
           ">" +:+ LF +:+
           "< 200 OK" +:+ LF +:+
           "ok" +:+
           report.trace_section
             (finish 100 100120000
                (foldl trace.observe trace.Timings_zero
                   (schedule example.pooled_round_trip)))];
        main.stderr := [];
        main.status := 0 |}.
Proof.
  assert (Hall : Forall (λ full, has_colon full = true) ["X-Hello: hi"])
    by (repeat constructor).
  rewrite (main_prints_the_report (scenario.world example.pooled None)
             (scenario.flags ["X-Hello: hi"] ["https://example.com"])
             "https://example.com" [] 0 example.store0 example.request0
             {| Scheme := "https"; Host := "example.com"; Path := "" |} ∅
             (schedule example.pooled_round_trip)
             (example.ok200 {| body_data := "ok"; body_err := None |})
             eq_refl eq_refl eq_refl eq_refl eq_refl Hall eq_refl eq_refl).
  vm_compute. reflexivity.
Defined.

Lemma main_reports_client_error_witness :
  main.main (scenario.world example.timed_out None)
    (scenario.flags ["X-Hello: hi"] ["https://example.com"]) =
  Ok {| main.stdout := [];
        main.stderr :=
          ["Error: error sending request: context deadline exceeded (Client.Timeout exceeded while awaiting headers)" +:+ LF];
        main.status := 1 |}.
Proof.
  assert (Hall : Forall (λ full, has_colon full = true) ["X-Hello: hi"])
    by (repeat constructor).
  exact (main_reports_client_error (scenario.world example.timed_out None)
           (scenario.flags ["X-Hello: hi"] ["https://example.com"])
           "https://example.com" [] 0 example.store0 example.request0 ∅
           _ example.timeout_error
           eq_refl eq_refl eq_refl eq_refl Hall eq_refl).
Defined.

Lemma main_panics_on_header_without_colon_witness :
  main.main (scenario.world example.pooled None)
    (scenario.flags ["X-Hello: hi"; "no separator"] ["https://example.com"])
  = Panic IndexOutOfRange.
Proof.
  apply (main_panics_on_header_without_colon (scenario.world example.pooled None)
           (scenario.flags ["X-Hello: hi"; "no separator"] ["https://example.com"])
           "https://example.com" [] 0 example.store0 example.request0 ∅
           eq_refl eq_refl eq_refl eq_refl).
  apply Exists_cons_tl, Exists_cons_hd. reflexivity.
Defined.

Lemma main_rejects_command_line_witness :
  main.main (scenario.world example.pooled None) (scenario.flags ["X-Hello: hi"] []) =
  Ok {| main.stdout := [];
        main.stderr := ["Error: no url specified" +:+ LF];
        main.status := 1 |}.
Proof.
  destruct (main_rejects_command_line (scenario.world example.pooled None)
              (scenario.flags ["X-Hello: hi"] [])) as [Hnone _].
  exact (Hnone eq_refl).
Defined.

Lemma main_exit_status_witness :
  main.program (scenario.world example.pooled (Some (errorString "broken pipe")))
    (main.Returned (scenario.flags [] ["https://example.com"])) =
  Ok {| main.stdout := [];
        main.stderr := ["Error: Error writing output: broken pipe" +:+ LF];
        main.status := 1 |} ∧
  main.program (scenario.world example.pooled None)
    (main.Rejected ["invalid value for flag -t"]) =
  Ok {| main.stdout := [];
        main.stderr := ["invalid value for flag -t"];
        main.status := 2 |} ∧
  ((1 = 0 ∧ (∃ f, main.Returned (scenario.flags [] ["https://example.com"])
                  = main.Returned f) ∧
    ∃ text : string, [] = [text]) ∨
   (1 = 1 ∧ (∃ f, main.Returned (scenario.flags [] ["https://example.com"])
                  = main.Returned f) ∧
    ∃ err errs, ["Error: Error writing output: broken pipe" +:+ LF]
                = errs ++ ["Error: " +:+ Error err +:+ LF]) ∨
   (1 = 2 ∧ @nil string = [] ∧
    ∃ message, main.Returned (scenario.flags [] ["https://example.com"])
               = main.Rejected message ∧
               ["Error: Error writing output: broken pipe" +:+ LF] = message) ∨
   (1 = 0 ∧ @nil string = [] ∧
    ∃ usage, main.Returned (scenario.flags [] ["https://example.com"])
             = main.Help usage ∧
             ["Error: Error writing output: broken pipe" +:+ LF] = usage)).
Proof.
  assert (Hrun :
    main.program (scenario.world example.pooled (Some (errorString "broken pipe")))
      (main.Returned (scenario.flags [] ["https://example.com"])) =
    Ok {| main.stdout := [];
          main.stderr := ["Error: Error writing output: broken pipe" +:+ LF];
          main.status := 1 |}) by (vm_compute; reflexivity).
  split; [exact Hrun|]. split; [reflexivity|].
  exact (main_exit_status _ _ _ Hrun).
Defined.
